(** * Essensfindung: the restaurant search, selection and rating store

    A shallow embedding of
      - [services/service_res.py]  (filter, enrichment, weighted draw,
        post-selection bookkeeping, assessment services),
      - [infrastructure/gapi.py]   (paged place search and place details),
      - [db/crud/bewertung.py]     (rating store adapter),
      - [app/tools/security.py]    (login form, bearer cookie, access tokens),
    together with the properties of the specification that concern them.

    Conventions.
      - A Python call that may raise is a value of [outcome A]: [inl e] is
        the exception raised, [inr v] the value returned.
      - A Python object that is mutated in place (the candidate list, the
        candidates in it, the database) is threaded explicitly: a function
        returns the object's final content next to its outcome.
      - Loops whose trip count is not structural (iteration over a list that
        shrinks meanwhile, binary search, following page tokens) take a
        [fuel : nat] and return [None] only when the fuel ran out; for each
        of them a lemma gives fuel that is enough.
      - Ratings are integers ([Z]); the weight list of the draw is declared
        [List[int]] by the source. *)

From Stdlib Require Import List ZArith QArith String Bool Lia PeanoNat.
From Stdlib Require Ascii DecimalString.
Import ListNotations.

Local Open Scope string_scope.
Local Open Scope Z_scope.

(** ** Exceptions and outcomes *)

Inductive exn : Type :=
| TypeError                         (* builtin: e.g. [None < 4] *)
| ValueError                        (* builtin: [list.remove], [random.choices] *)
| IndexError                        (* builtin: [cum_weights[-1]] on an empty list *)
| AttributeError                    (* builtin: attribute access on [None] *)
| HTTPError                         (* httpx.HTTPError and its subclasses *)
| GoogleApiException (msg : string) (* models.restaurant.GoogleApiException *)
| InvalidRequestError (msg : string) (* sqlalchemy.exc.InvalidRequestError *)
| IntegrityError.                   (* sqlalchemy.exc.IntegrityError *)

Definition outcome (A : Type) : Type := (exn + A)%type.

Definition raise {A : Type} (e : exn) : outcome A := inl e.
Definition ret {A : Type} (v : A) : outcome A := inr v.

(** ** Data model *)

Module Scheme.

(** Modelled from the spec: [schemes/scheme_rest.py] is not part of the
    sources.  The position of a candidate: geographic coordinates (kept as
    fixed-point integers; no modelled function computes with them) and the
    address, which [place_details] writes as [geometry.location.adr]. *)
Record Location : Type := mkLocation {
  lat : Z;
  lng : Z;
  adr : option string
}.

(** Modelled from the spec: [schemes/scheme_rest.py] is not part of the
    sources.  The sources reach the address as [geometry.location.adr]. *)
Record Geometry : Type := mkGeometry {
  location : Location
}.

(** Modelled from the spec: [schemes/scheme_rest.py] is not part of the
    sources.  The restaurant candidate: identity (the place identifier of
    the external service), name, position, external rating (may be absent),
    the requester's own rating (attached by the enrichment, absent before),
    and the enrichment fields website, map link and phone number.  These are
    the fields the sources read or write ([place_id], [rating],
    [own_rating], [homepage], [maps_url], [phone_number], [geometry]) and
    the name the specification lists. *)
Record Restaurant : Type := mkRestaurant {
  place_id : string;
  name : string;
  geometry : Geometry;
  rating : option Z;        (* external (Google) rating, may be absent *)
  own_rating : option Z;    (* the requester's own rating, may be absent *)
  homepage : option string;
  maps_url : option string;
  phone_number : option string
}.

Definition set_rating (res : Restaurant) (v : option Z) : Restaurant :=
  mkRestaurant (place_id res) (name res) (geometry res) v (own_rating res)
               (homepage res) (maps_url res) (phone_number res).

Definition set_own_rating (res : Restaurant) (v : option Z) : Restaurant :=
  mkRestaurant (place_id res) (name res) (geometry res) (rating res) v
               (homepage res) (maps_url res) (phone_number res).

Definition option_eq_dec {A : Type} (dec : forall x y : A, {x = y} + {x <> y})
  (x y : option A) : {x = y} + {x <> y}.
Proof. decide equality. Defined.

Definition Location_eq_dec (x y : Location) : {x = y} + {x <> y}.
Proof.
  decide equality;
    [ apply (option_eq_dec string_dec) | apply Z.eq_dec | apply Z.eq_dec ].
Defined.

Definition Geometry_eq_dec (x y : Geometry) : {x = y} + {x <> y}.
Proof. decide equality; apply Location_eq_dec. Defined.

(** Pydantic models compare by field values; [list.remove] uses that
    comparison. *)
Definition Restaurant_eq_dec (x y : Restaurant) : {x = y} + {x <> y}.
Proof.
  decide equality;
    try apply (option_eq_dec string_dec);
    try apply (option_eq_dec Z.eq_dec);
    try apply Geometry_eq_dec;
    try apply string_dec.
Defined.

End Scheme.
Export Scheme.

(** ** Python list primitives used by the sources *)

Module PyList.

(** [l.remove(x)]: drops the first element equal to [x]; [ValueError] when
    there is none. *)
Fixpoint remove (x : Restaurant) (l : list Restaurant) : outcome (list Restaurant) :=
  match l with
  | [] => raise ValueError
  | y :: t =>
      if Restaurant_eq_dec y x then ret t
      else match remove x t with
           | inl e => inl e
           | inr t' => ret (y :: t')
           end
  end.

End PyList.

(** ** services/service_res.py: the filter stage *)

(** [a < b] where [a] may be [None]: Python 3 raises [TypeError] when an
    operand is [None]. *)
Definition py_lt (a : option Z) (b : Z) : outcome bool :=
  match a with
  | None => raise TypeError
  | Some v => ret (v <? b)
  end.

(** The loop of [filter_rating]:
<<
    for res in rests:
        if res.rating < rating:
            rests.remove(res)
>>
    The list iterator holds an index [i] into the live list: every turn
    reads [rests[i]] (stopping when [i] is past the end) and advances [i],
    while the body may shorten [rests].  The result is the final content of
    the list object and the exception that ended the loop, if any. *)
Fixpoint filter_rating_loop (fuel : nat) (i : nat) (rests : list Restaurant)
  (min_rating : Z) : option (list Restaurant * option exn) :=
  match fuel with
  | O => None
  | S fuel' =>
      match nth_error rests i with
      | None => Some (rests, None)
      | Some res =>
          match py_lt (rating res) min_rating with
          | inl e => Some (rests, Some e)
          | inr true =>
              match PyList.remove res rests with
              | inl e => Some (rests, Some e)
              | inr rests' => filter_rating_loop fuel' (S i) rests' min_rating
              end
          | inr false => filter_rating_loop fuel' (S i) rests min_rating
          end
      end
  end.

(** [filter_rating(rests, rating)]: the mutated list object is also the
    value returned. *)
Definition filter_rating (rests : list Restaurant) (min_rating : Z)
  : option (list Restaurant * option exn) :=
  filter_rating_loop (S (List.length rests)) 0 rests min_rating.

(** Modelled from the spec: [schemes/scheme_filter.py] is not part of the
    sources; the filter criteria are cuisine keyword, search origin, radius
    and minimum acceptable rating.  The sources read [user_f.rating]. *)
Record FilterRest : Type := mkFilterRest {
  cuisine : string;
  origin_lat : Z;
  origin_lng : Z;
  radius : Z;
  filter_min_rating : Z
}.

Definition apply_filter (rests : list Restaurant) (user_f : FilterRest)
  : option (list Restaurant * option exn) :=
  filter_rating rests (filter_min_rating user_f).

(** ** The weighted draw of Python's standard library

    [random.choices(population, weights=..., k=1)] as CPython 3.9 and later
    implement it ([Lib/random.py]; the sources use the built-in generic
    [list[Restaurant]], which needs 3.9).  The random number enters as the
    argument [u]: the product [random() * total], as the float
    multiplication yields it, divided by [total].  [random()] is at most
    [1 - 2^-53], so the rounded product is at least 0 and below [total],
    [u] is a rational of [[0, 1)], and [u * total] below is exactly the
    float the binary search compares with the running sums (Python compares
    a float with an integer exactly).  [u] is not [random()] itself: the
    two differ by the rounding of the multiplication. *)

Module PyRandom.

(** [itertools.accumulate(weights)]: the running sums. *)
Fixpoint accumulate_from (acc : Z) (weights : list Z) : list Z :=
  match weights with
  | [] => []
  | w :: t => (acc + w) :: accumulate_from (acc + w) t
  end.

Definition accumulate (weights : list Z) : list Z := accumulate_from 0 weights.

(** [x < y] on rationals. *)
Definition Qltb (x y : Q) : bool := negb (Qle_bool y x).

(** [bisect.bisect_right(a, x, lo, hi)]:
<<
    while lo < hi:
        mid = (lo + hi) // 2
        if x < a[mid]: hi = mid
        else: lo = mid + 1
    return lo
>> *)
Fixpoint bisect_loop (fuel : nat) (a : list Z) (x : Q) (lo hi : nat)
  : option (outcome nat) :=
  match fuel with
  | O => None
  | S fuel' =>
      if (lo <? hi)%nat then
        let mid := ((lo + hi) / 2)%nat in
        match nth_error a mid with
        | None => Some (raise IndexError)
        | Some a_mid =>
            if Qltb x (inject_Z a_mid)
            then bisect_loop fuel' a x lo mid
            else bisect_loop fuel' a x (S mid) hi
        end
      else Some (ret lo)
  end.

Definition bisect (a : list Z) (x : Q) (lo hi : nat) : option (outcome nat) :=
  bisect_loop (S (hi - lo)) a x lo hi.

(** [cum_weights[-1]]. *)
Definition last_item (l : list Z) : outcome Z :=
  match l with
  | [] => raise IndexError
  | y :: t => ret (last t y)
  end.

(** [choices(population, weights, k=1)[0]]:
<<
    n = len(population)
    cum_weights = list(accumulate(weights))
    if len(cum_weights) != n: raise ValueError(...)
    total = cum_weights[-1] + 0.0
    if total <= 0.0: raise ValueError('Total of weights must be greater than zero')
    hi = n - 1
    return [population[bisect(cum_weights, random() * total, 0, hi)]]
>>
    (the finiteness test on [total] never fails on integer weights).
    [u * total] is the float [random() * total] (see above). *)
Definition choices {A : Type} (population : list A) (weights : list Z) (u : Q)
  : option (outcome A) :=
  let n := List.length population in
  let cum_weights := accumulate weights in
  if negb (List.length cum_weights =? n)%nat then Some (raise ValueError)
  else
    match last_item cum_weights with
    | inl e => Some (inl e)
    | inr total =>
        if total <=? 0 then Some (raise ValueError)
        else
          let hi := (n - 1)%nat in
          match bisect cum_weights (u * inject_Z total)%Q 0 hi with
          | None => None
          | Some (inl e) => Some (inl e)
          | Some (inr i) =>
              match nth_error population i with
              | None => Some (raise IndexError)
              | Some chosen => Some (ret chosen)
              end
          end
    end.

End PyRandom.

(** ** services/service_res.py: weighting and draw *)

(** [a * 4 + b * 2] on fields that may hold [None]: arithmetic on [None]
    raises [TypeError]. *)
Definition py_weight (own ext : option Z) : outcome Z :=
  match own, ext with
  | Some o, Some e => ret (o * 4 + e * 2)
  | _, _ => raise TypeError
  end.

(** One turn of the loop of [select_restaurant] on the candidate [res]:
<<
    if res.own_rating is None: res.own_rating = 0
    if res.rating is None: res.rating = 0
    weights.append(res.own_rating * 4 + res.rating * 2)
>>
    gives the candidate as the turn leaves it and the weight appended. *)
Definition select_turn (res : Restaurant) : Restaurant * outcome Z :=
  let res1 :=
    match own_rating res with
    | None => set_own_rating res (Some 0)
    | Some _ => res
    end in
  let res2 :=
    match rating res1 with
    | None => set_rating res1 (Some 0)
    | Some _ => res1
    end in
  (res2, py_weight (own_rating res2) (rating res2)).

(** The whole loop: the candidates as mutated, and [weights] (or the
    exception that ended the loop). *)
Fixpoint select_weights (rests : list Restaurant)
  : list Restaurant * outcome (list Z) :=
  match rests with
  | [] => ([], ret [])
  | res :: t =>
      match select_turn res with
      | (res', inl e) => (res' :: t, inl e)
      | (res', inr w) =>
          match select_weights t with
          | (t', inl e) => (res' :: t', inl e)
          | (t', inr ws) => (res' :: t', ret (w :: ws))
          end
      end
  end.

(** [select_restaurant(rests)]: the candidates as the loop left them, and
    the outcome of [random.choices(rests, weights=weights, k=1)[0]]. *)
Definition select_restaurant (rests : list Restaurant) (u : Q)
  : list Restaurant * option (outcome Restaurant) :=
  match select_weights rests with
  | (rests', inl e) => (rests', Some (inl e))
  | (rests', inr weights) => (rests', PyRandom.choices rests' weights u)
  end.

(** ** Schemes exchanged between the services and the store *)

Module UserBase.
(** Modelled from the spec: [schemes/scheme_user.py] is not part of the
    sources.  A user is identified by the mail address. *)
Record t : Type := mk { email : string }.
End UserBase.

Module RestaurantBase.
(** Modelled from the spec: [schemes/scheme_rest.py] is not part of the
    sources.  A restaurant is identified by the place identifier. *)
Record t : Type := mk { place_id : string }.
End RestaurantBase.

(** A [Restaurant] passed where a [RestaurantBase] is expected. *)
Definition as_base (res : Restaurant) : RestaurantBase.t :=
  RestaurantBase.mk (place_id res).

Module RestBewertungCreate.
(** Modelled from the spec: [schemes/scheme_rest.py] is not part of the
    sources.  An assessment to create or update: the user, the restaurant,
    the free-text comment and the numeric rating. *)
Record t : Type := mk {
  person : UserBase.t;
  restaurant : RestaurantBase.t;
  comment : string;
  rating : Z
}.
End RestBewertungCreate.

Module RestBewertungReturn.
(** Modelled from the spec: [schemes/scheme_rest.py] is not part of the
    sources.  An assessment as returned: comment, rating and creation
    timestamp. *)
Record t : Type := mk {
  comment : string;
  rating : Z;
  timestamp : Z
}.
End RestBewertungReturn.

(** ** The store *)

Module Db.

Module Bewertung.
(** Modelled from the spec: the mapped class [Bewertung] of [db/base.py] is
    not part of the sources.  A rating row is (user identity, restaurant
    identity, numeric rating, free-text comment, creation timestamp). *)
Record t : Type := mk {
  person_email : string;
  place_id : string;
  kommentar : string;
  rating : Z;
  zeitstempel : Z
}.
End Bewertung.

(** Modelled from the spec: the tables of persons and of ratings
    ([db/base.py]) are not part of the sources.  The session's view of the
    database is the [person] table (only the mail column is read by the
    modelled code), the [restaurant] table of [db/models/restaurant.py]
    (one column, the primary key [place_id]), the rating rows in storage
    order, and the clock the server stamps new rows with.  The declaration
    of the rating table decides whether (person_email, place_id) is its
    key; the specification describes the ratings as keyed by the (user,
    restaurant) pair and also says that uniqueness is not enforced by the
    storage, so the store records which of the two holds in
    [bewertung_keyed]. *)
Record Session : Type := mkSession {
  person_table : list string;
  restaurant_table : list string;
  bewertung_table : list Bewertung.t;
  clock : Z;
  bewertung_keyed : bool
}.

Definition with_bewertungen (db : Session) (rows : list Bewertung.t) : Session :=
  mkSession (person_table db) (restaurant_table db) rows (clock db)
            (bewertung_keyed db).

Definition with_restaurants (db : Session) (ids : list string) : Session :=
  mkSession (person_table db) ids (bewertung_table db) (clock db)
            (bewertung_keyed db).

(** Modelled from the spec: [db/crud/user.py] is not part of the sources.
    [get_user_by_mail(db, email)] is the person with that mail address, or
    [None]. *)
Definition get_user_by_mail (db : Session) (email : string) : option string :=
  find (String.eqb email) (person_table db).

(** Modelled from the spec: [db/crud/restaurant.py] is not part of the
    sources.  [get_restaurant_by_id(db, place_id)] is the restaurant row
    with that identifier, or [None]. *)
Definition get_restaurant_by_id (db : Session) (place_id : string) : option string :=
  find (String.eqb place_id) (restaurant_table db).

(** Modelled from the spec: [db/crud/restaurant.py] is not part of the
    sources.  [create_restaurant(db, rest)] persists the restaurant; the
    primary key declared in [db/models/restaurant.py] refuses a second row
    with the same [place_id]. *)
Definition create_restaurant (db : Session) (rest : RestaurantBase.t)
  : Session * outcome string :=
  match get_restaurant_by_id db (RestaurantBase.place_id rest) with
  | Some _ => (db, raise IntegrityError)
  | None =>
      (with_restaurants db (restaurant_table db ++ [RestaurantBase.place_id rest]),
       ret (RestaurantBase.place_id rest))
  end.

(** *** db/crud/bewertung.py *)

(** The rows a query on [Bewertung] joined with [Person] and [Restaurant]
    keeps for the given user and restaurant. *)
Definition joined_match (db : Session) (user : UserBase.t)
  (rest : RestaurantBase.t) (b : Bewertung.t) : bool :=
  existsb (String.eqb (Bewertung.person_email b)) (person_table db)
  && existsb (String.eqb (Bewertung.place_id b)) (restaurant_table db)
  && String.eqb (Bewertung.person_email b) (UserBase.email user)
  && String.eqb (Bewertung.place_id b) (RestaurantBase.place_id rest).

(** [get_bewertung_from_user_to_rest]: [.first()] of the joined query. *)
Definition get_bewertung_from_user_to_rest (db : Session) (user : UserBase.t)
  (rest : RestaurantBase.t) : option Bewertung.t :=
  find (joined_match db user rest) (bewertung_table db).

(** The rows the filter of [update_bewertung] and [delete_bewertung]
    selects: [person_email] and [place_id] equal to the given ones. *)
Definition row_match (email place_id : string) (b : Bewertung.t) : bool :=
  String.eqb (Bewertung.person_email b) email
  && String.eqb (Bewertung.place_id b) place_id.

(** [db.add(row)] followed by [db.commit()] on the rating table.  Where the
    table is keyed by (person_email, place_id), a row whose pair the table
    already holds is refused at the commit with [IntegrityError] and the
    table stays as it was; otherwise the row is appended. *)
Definition add_and_commit (db : Session) (row : Bewertung.t)
  : Session * outcome Bewertung.t :=
  if bewertung_keyed db
     && existsb (row_match (Bewertung.person_email row) (Bewertung.place_id row))
                (bewertung_table db)
  then (db, raise IntegrityError)
  else (with_bewertungen db (bewertung_table db ++ [row]), ret row).

(** [create_bewertung]: both existence checks precede [db.add]. *)
Definition create_bewertung (db : Session) (assessment : RestBewertungCreate.t)
  : Session * outcome Bewertung.t :=
  match get_user_by_mail db
          (UserBase.email (RestBewertungCreate.person assessment)) with
  | None => (db, raise (InvalidRequestError "User does not exist"))
  | Some _ =>
      match get_restaurant_by_id db
              (RestaurantBase.place_id (RestBewertungCreate.restaurant assessment)) with
      | None => (db, raise (InvalidRequestError "Restaurant does not exist"))
      | Some _ =>
          let db_assessment :=
            Bewertung.mk
              (UserBase.email (RestBewertungCreate.person assessment))
              (RestaurantBase.place_id (RestBewertungCreate.restaurant assessment))
              (RestBewertungCreate.comment assessment)
              (RestBewertungCreate.rating assessment)
              (clock db) in
          add_and_commit db db_assessment
      end
  end.

Definition update_row (new_bewertung : RestBewertungCreate.t) (b : Bewertung.t)
  : Bewertung.t :=
  Bewertung.mk (Bewertung.person_email b) (Bewertung.place_id b)
               (RestBewertungCreate.comment new_bewertung)
               (RestBewertungCreate.rating new_bewertung)
               (Bewertung.zeitstempel b).

(** [update_bewertung]: a bulk [UPDATE] of the rows matching the old
    assessment, then the lookup for the new assessment's user and
    restaurant ([None] when there is no such row). *)
Definition update_bewertung (db : Session)
  (old_bewertung new_bewertung : RestBewertungCreate.t)
  : Session * option Bewertung.t :=
  let email := UserBase.email (RestBewertungCreate.person old_bewertung) in
  let place_id :=
    RestaurantBase.place_id (RestBewertungCreate.restaurant old_bewertung) in
  let db' :=
    with_bewertungen db
      (map (fun b => if row_match email place_id b
                     then update_row new_bewertung b else b)
           (bewertung_table db)) in
  (db', get_bewertung_from_user_to_rest db'
          (RestBewertungCreate.person new_bewertung)
          (RestBewertungCreate.restaurant new_bewertung)).

(** [delete_bewertung]: removes the matching rows, returns their number. *)
Definition delete_bewertung (db : Session) (user : UserBase.t)
  (rest : RestaurantBase.t) : Session * Z :=
  let hit := row_match (UserBase.email user) (RestaurantBase.place_id rest) in
  (with_bewertungen db (filter (fun b => negb (hit b)) (bewertung_table db)),
   Z.of_nat (List.length (filter hit (bewertung_table db)))).

(** The number of rating rows of a (user, restaurant) pair. *)
Definition count_ratings (db : Session) (email place_id : string) : nat :=
  List.length (filter (row_match email place_id) (bewertung_table db)).

End Db.

(** ** services/service_res.py: assessments and the full search *)

Definition to_return (b : Db.Bewertung.t) : RestBewertungReturn.t :=
  RestBewertungReturn.mk (Db.Bewertung.kommentar b) (Db.Bewertung.rating b)
                         (Db.Bewertung.zeitstempel b).

(** [add_assessment]: [create_bewertung], any error re-raised as it is. *)
Definition add_assessment (db : Db.Session) (assessment : RestBewertungCreate.t)
  : Db.Session * outcome RestBewertungReturn.t :=
  match Db.create_bewertung db assessment with
  | (db', inl error) => (db', inl error)
  | (db', inr created_assessment) => (db', ret (to_return created_assessment))
  end.

(** [update_assessment]: reads [kommentar], [rating] and [zeitstempel] of
    what [update_bewertung] returned; on [None] the attribute access raises
    [AttributeError]. *)
Definition update_assessment (db : Db.Session)
  (old_assessment new_assessment : RestBewertungCreate.t)
  : Db.Session * outcome RestBewertungReturn.t :=
  match Db.update_bewertung db old_assessment new_assessment with
  | (db', None) => (db', raise AttributeError)
  | (db', Some updated_assessment) => (db', ret (to_return updated_assessment))
  end.

Definition delete_assessment (db : Db.Session) (user : UserBase.t)
  (rest : RestaurantBase.t) : Db.Session * Z :=
  Db.delete_bewertung db user rest.

(** [fill_user_rating]: every candidate the user has rated gets that
    rating as [own_rating]; the store is only read. *)
Definition fill_user_rating (db : Db.Session) (rests : list Restaurant)
  (user : UserBase.t) : list Restaurant :=
  map (fun rest =>
         match Db.get_bewertung_from_user_to_rest db user (as_base rest) with
         | Some assessment =>
             set_own_rating rest (Some (Db.Bewertung.rating assessment))
         | None => rest
         end)
      rests.

Section SearchForRestaurant.

(** [tools/gapi.py], the search the service calls with the filter alone, is
    not part of the sources: its outcome is a parameter. *)
Variable gapi_search_restaurant : FilterRest -> outcome (list Restaurant).

(** The assessment scheme's defaults for the fields that
    [RestBewertungCreate(person=user, restaurant=restaurant)] leaves out. *)
Variable default_comment : string.
Variable default_rating : Z.

(** The bookkeeping after the draw:
<<
    if get_restaurant_by_id(db_session, restaurant.place_id):
        create_restaurant(db_session, restaurant)
        add_assessment(db_session, RestBewertungCreate(person=user, restaurant=restaurant))
    return restaurant
>> *)
Definition bookkeeping (db : Db.Session) (user : UserBase.t)
  (restaurant : Restaurant) : Db.Session * outcome Restaurant :=
  match Db.get_restaurant_by_id db (place_id restaurant) with
  | Some _ =>
      match Db.create_restaurant db (as_base restaurant) with
      | (db1, inl e) => (db1, inl e)
      | (db1, inr _) =>
          match add_assessment db1
                  (RestBewertungCreate.mk user (as_base restaurant)
                                          default_comment default_rating) with
          | (db2, inl e) => (db2, inl e)
          | (db2, inr _) => (db2, ret restaurant)
          end
      end
  | None => (db, ret restaurant)
  end.

(** [search_for_restaurant]: search, filter, enrichment, draw, bookkeeping;
    no stage catches an exception. *)
Definition search_for_restaurant (db : Db.Session) (user : UserBase.t)
  (user_f : FilterRest) (u : Q) : option (Db.Session * outcome Restaurant) :=
  match gapi_search_restaurant user_f with
  | inl e => Some (db, inl e)
  | inr google_rests =>
      match apply_filter google_rests user_f with
      | None => None
      | Some (_, Some e) => Some (db, inl e)
      | Some (filterd_rests, None) =>
          let user_rests := fill_user_rating db filterd_rests user in
          match select_restaurant user_rests u with
          | (_, None) => None
          | (_, Some (inl e)) => Some (db, inl e)
          | (_, Some (inr restaurant)) => Some (bookkeeping db user restaurant)
          end
      end
  end.

End SearchForRestaurant.

(** ** infrastructure/gapi.py *)

Module Gapi.

(** What the nearby-search request is parametrised by. *)
Record Params : Type := mkParams {
  keyword : string;
  param_lat : Z;
  param_lng : Z;
  opennow : bool;
  param_radius : Z;
  type : string;
  language : string
}.

(** The body of a nearby-search response: the parsed [results] and the
    [next_page_token], if any. *)
Record NearbyResponse : Type := mkNearbyResponse {
  results : list Restaurant;
  next_page_token : option string
}.

(** The [result] object of a place-details response. *)
Record DetailsResult : Type := mkDetailsResult {
  website : option string;
  url : option string;
  international_phone_number : option string;
  formatted_address : option string
}.

(** A value returned by a Python function that may be [None]. *)
Inductive py_optional (A : Type) : Type :=
| PyNone
| PyValue (v : A).
Arguments PyNone {A}.
Arguments PyValue {A} v.

(** Truth value of [resp_obj.get("next_page_token")]: a missing token and
    the empty string are false. *)
Definition truthy (token : option string) : bool :=
  match token with
  | None => false
  | Some s => negb (String.eqb s "")
  end.

(** What [place_details] writes into one restaurant. *)
Definition with_details (restaurant : Restaurant) (resp_obj : DetailsResult)
  : Restaurant :=
  mkRestaurant (place_id restaurant) (name restaurant)
    (mkGeometry
       (mkLocation (lat (location (geometry restaurant)))
                   (lng (location (geometry restaurant)))
                   (formatted_address resp_obj)))
    (rating restaurant) (own_rating restaurant)
    (website resp_obj) (url resp_obj) (international_phone_number resp_obj).

Section Service.

(** The third-party service: [httpx.get] followed by [raise_for_status]
    and [json], for the nearby search (by request parameters and page token)
    and for the place details (by place identifier).  A network error or a
    non-success status is [inl HTTPError]. *)
Variable nearbysearch : Params -> option string -> outcome NearbyResponse.
Variable details : string -> outcome DetailsResult.

(** [nearby_search(params, next_page_token)]: one page, then recursively
    the pages that follow while the response carries a token. *)
Fixpoint nearby_search (fuel : nat) (params : Params)
  (page_token : option string) : option (outcome (list Restaurant)) :=
  match fuel with
  | O => None
  | S fuel' =>
      match nearbysearch params page_token with
      | inl e => Some (inl e)
      | inr resp_obj =>
          let restaurants := results resp_obj in
          if truthy (next_page_token resp_obj) then
            match nearby_search fuel' params (next_page_token resp_obj) with
            | None => None
            | Some (inl e) => Some (inl e)
            | Some (inr more) => Some (ret (restaurants ++ more)%list)
            end
          else Some (ret restaurants)
      end
  end.

(** [place_details(restaurants)]: one details request per restaurant. *)
Fixpoint place_details (restaurants : list Restaurant)
  : outcome (list Restaurant) :=
  match restaurants with
  | [] => ret []
  | restaurant :: rest =>
      match details (place_id restaurant) with
      | inl e => inl e
      | inr resp_obj =>
          match place_details rest with
          | inl e => inl e
          | inr extended_restaurants =>
              ret (with_details restaurant resp_obj :: extended_restaurants)
          end
      end
  end.

(** [except httpx.HTTPError as error: raise GoogleApiException(...)]. *)
Definition translate (e : exn) : exn :=
  match e with
  | HTTPError => GoogleApiException "Can't communicate with the Google API"
  | _ => e
  end.

(** The [try] block of [search_restaurant(cuisin, location, radius)]:
<<
    try:
        restaurants = nearby_search(params=params)
        restaurants = place_details(restaurants)
    except httpx.HTTPError as error:
        raise GoogleApiException(...) from error
>>
    gives the exception raised or the final value of the local variable
    [restaurants]. *)
Definition search_restaurant_try (fuel : nat) (cuisin : string)
  (loc_lat loc_lng : Z) (radius : Z) : option (outcome (list Restaurant)) :=
  let params := mkParams cuisin loc_lat loc_lng true radius "restaurant" "de" in
  match nearby_search fuel params None with
  | None => None
  | Some (inl e) => Some (inl (translate e))
  | Some (inr restaurants) =>
      match place_details restaurants with
      | inl e => Some (inl (translate e))
      | inr extended => Some (ret extended)
      end
  end.

(** [search_restaurant]: the body ends with the [try] block; there is no
    [return] statement, so a call that does not raise returns [None]. *)
Definition search_restaurant (fuel : nat) (cuisin : string) (loc_lat loc_lng : Z)
  (radius : Z) : option (outcome (py_optional (list Restaurant))) :=
  match search_restaurant_try fuel cuisin loc_lat loc_lng radius with
  | None => None
  | Some (inl e) => Some (inl e)
  | Some (inr _) => Some (ret PyNone)
  end.

End Service.

End Gapi.

(** ** The specification's formulas, as it words them *)

Module Spec.

(** "either component defaults to 0 if absent". *)
Definition or_zero (v : option Z) : Z :=
  match v with
  | Some x => x
  | None => 0
  end.

(** "[weight = (own_rating or 0) * 4 + (external_rating or 0) * 2]". *)
Definition weight (res : Restaurant) : Z :=
  or_zero (own_rating res) * 4 + or_zero (rating res) * 2.

(** "retain only candidates whose external rating >= the filter's minimum
    rating", an absent rating counting as 0. *)
Definition filter_stage (rests : list Restaurant) (min_rating : Z)
  : list Restaurant :=
  filter (fun res => min_rating <=? or_zero (rating res)) rests.

(** Sum of a list of integers. *)
Definition Zsum (l : list Z) : Z := fold_right Z.add 0 l.

(** The total of the weights of a candidate list. *)
Definition total_weight (rests : list Restaurant) : Z :=
  Zsum (map weight rests).

End Spec.

(** A candidate as the weighting loop leaves it: absent ratings replaced
    by 0, every other field as it was. *)
Definition zero_filled (res : Restaurant) : Restaurant :=
  mkRestaurant (place_id res) (name res) (geometry res)
               (Some (Spec.or_zero (rating res)))
               (Some (Spec.or_zero (own_rating res)))
               (homepage res) (maps_url res) (phone_number res).

(** ** Concrete data for the scenarios *)

Module Examples.

Definition candidate (id : string) (ext own : option Z) : Restaurant :=
  mkRestaurant id id (mkGeometry (mkLocation 0 0 None)) ext own None None None.

Definition cand_A : Restaurant := candidate "A" (Some 5) None.
Definition cand_B : Restaurant := candidate "B" (Some 3) None.
Definition cand_C : Restaurant := candidate "C" (Some 4) None.
Definition cand_D : Restaurant := candidate "D" (Some 2) None.
(** A place the external service has no rating for. *)
Definition cand_N : Restaurant := candidate "N" None None.

Definition alice : UserBase.t := UserBase.mk "alice@example.org".

Definition a_filter (min_rating : Z) : FilterRest :=
  mkFilterRest "italian" 0 0 5000 min_rating.

(** A store that knows [alice] and no restaurant. *)
Definition db_fresh : Db.Session :=
  Db.mkSession ["alice@example.org"] [] [] 100 true.

(** A store that knows [alice] and the restaurant [A], without ratings;
    like every store of the scenarios, its rating table is keyed by the
    (user, restaurant) pair. *)
Definition db_known : Db.Session :=
  Db.mkSession ["alice@example.org"] ["A"] [] 100 true.

Definition assessment_A (comment : string) (rating : Z) : RestBewertungCreate.t :=
  RestBewertungCreate.mk alice (RestaurantBase.mk "A") comment rating.

(** A search service: one page with [A], [B], [C]. *)
Definition gapi_ABC (_ : FilterRest) : outcome (list Restaurant) :=
  ret [cand_A; cand_B; cand_C].

(** A search service: one page with [B] alone. *)
Definition gapi_B (_ : FilterRest) : outcome (list Restaurant) :=
  ret [cand_B].

(** A nearby-search service with two pages: [A], [B] and the token ["t1"],
    then [C] and no token. *)
Definition two_pages (_ : Gapi.Params) (page_token : option string)
  : outcome Gapi.NearbyResponse :=
  match page_token with
  | None => ret (Gapi.mkNearbyResponse [cand_A; cand_B] (Some "t1"))
  | Some _ => ret (Gapi.mkNearbyResponse [cand_C] None)
  end.

Definition some_details (place_id : string) : outcome Gapi.DetailsResult :=
  ret (Gapi.mkDetailsResult (Some ("https://" ++ place_id ++ ".example"))
                            (Some ("https://maps.example/" ++ place_id))
                            (Some "+49 621 0000")
                            (Some "Coblitzallee 1, Mannheim")).

End Examples.

(** ** db/crud/bewertung.py, services/service_res.py: the ratings of one user *)

(** [get_all_user_bewertungen]: [None] for an unknown user, else
    [user.bewertungen], the rating rows whose [person_email] is the
    person's mail address (the relationship of the mapped class [Person],
    declared like [Restaurant.bewertungen] of [db/models/restaurant.py]). *)
Definition get_all_user_bewertungen (db : Db.Session) (user : UserBase.t)
  : option (list Db.Bewertung.t) :=
  match Db.get_user_by_mail db (UserBase.email user) with
  | None => None
  | Some person =>
      Some (filter (fun b => String.eqb (Db.Bewertung.person_email b) person)
                   (Db.bewertung_table db))
  end.

(** [get_assessments_from_user]: a list comprehension over what
    [get_all_user_bewertungen] returned; iterating [None] raises
    [TypeError]. *)
Definition get_assessments_from_user (db : Db.Session) (user : UserBase.t)
  : outcome (list RestBewertungReturn.t) :=
  match get_all_user_bewertungen db user with
  | None => raise TypeError
  | Some db_rests => ret (map to_return db_rests)
  end.

(** ** Invariants of the store *)

(** Every rating row refers to a person and a restaurant of the store. *)
Definition referential_integrity (db : Db.Session) : Prop :=
  Forall (fun b =>
            In (Db.Bewertung.person_email b) (Db.person_table db)
            /\ In (Db.Bewertung.place_id b) (Db.restaurant_table db))
         (Db.bewertung_table db).


(** ** What the details request adds to a restaurant *)

(** [extended] is [restaurant] with the details [resp_obj] merged in, field
    by field as [place_details] assigns them: [homepage] from [website],
    [maps_url] from [url], [phone_number] from
    [international_phone_number], [geometry.location.adr] from
    [formatted_address]; identity, name, coordinates and both ratings are
    those of [restaurant]. *)
Definition details_merged (resp_obj : Gapi.DetailsResult)
  (restaurant extended : Restaurant) : Prop :=
  homepage extended = Gapi.website resp_obj
  /\ maps_url extended = Gapi.url resp_obj
  /\ phone_number extended = Gapi.international_phone_number resp_obj
  /\ adr (location (geometry extended)) = Gapi.formatted_address resp_obj
  /\ place_id extended = place_id restaurant
  /\ name extended = name restaurant
  /\ lat (location (geometry extended)) = lat (location (geometry restaurant))
  /\ lng (location (geometry extended)) = lng (location (geometry restaurant))
  /\ rating extended = rating restaurant
  /\ own_rating extended = own_rating restaurant.

(** ** Runs of pages of the nearby search *)

Section Paging.

Variable nearbysearch : Gapi.Params -> option string -> outcome Gapi.NearbyResponse.
Variable params : Gapi.Params.

(** [page_run token pages next]: asked for [token], the service answers
    with the first of [pages] and a token that counts as true, asked for
    that token with the second, and so on; [next] is the token the last of
    these answers carried ([token] itself when [pages] is empty). *)
Inductive page_run : option string -> list (list Restaurant) -> option string -> Prop :=
| page_run_stop (token : option string) : page_run token [] token
| page_run_next (token : option string) (page : list Restaurant)
    (next : option string) (pages : list (list Restaurant))
    (last_token : option string) :
    nearbysearch params token = inr (Gapi.mkNearbyResponse page next) ->
    Gapi.truthy next = true ->
    page_run next pages last_token ->
    page_run token (page :: pages) last_token.

End Paging.

(** ** app/tools/security.py *)

Module Security.

Import Ascii.

(** The exceptions of the module: [schemes.exceptions.NotAuthorizedException]
    and [jose.JWTError]. *)
Inductive auth_exn : Type :=
| NotAuthorizedException
| JWTError.

(** *** LoginForm *)

Record LoginForm : Type := mkLoginForm {
  errors : list string;
  username : option string;
  password : option string
}.

(** [LoginForm(request)]. *)
Definition new_form : LoginForm := mkLoginForm [] None None.

(** [load_data]: [form] is the submitted form, read with [form.get]. *)
Definition load_data (self : LoginForm) (form : string -> option string)
  : LoginForm :=
  mkLoginForm (errors self) (form "emailInput") (form "passwordInput").

(** ["@" in s]. *)
Fixpoint contains_at (s : string) : bool :=
  match s with
  | EmptyString => false
  | String c rest => Ascii.eqb c "@"%char || contains_at rest
  end.

(** [not self.username or not self.username.__contains__("@")]: [None] and
    the empty string are false. *)
Definition email_missing (username : option string) : bool :=
  match username with
  | None => true
  | Some EmptyString => true
  | Some s => negb (contains_at s)
  end.

(** [is_valid]:
<<
    if not self.username or not (self.username.__contains__("@")):
        self.errors.append("Email is required")
    if not self.errors:
        return True
    return False
>> *)
Definition is_valid (self : LoginForm) : LoginForm * bool :=
  let self' :=
    if email_missing (username self)
    then mkLoginForm (errors self ++ ["Email is required"])%list
                     (username self) (password self)
    else self in
  (self', match errors self' with [] => true | _ :: _ => false end).

(** *** OAuth2PasswordBearerWithCookie *)

(** [s.partition(" ")]: the part before the first space and the part after
    it; the whole string and the empty string when there is no space. *)
Fixpoint partition_space (s : string) : string * string :=
  match s with
  | EmptyString => (EmptyString, EmptyString)
  | String c rest =>
      if Ascii.eqb c " "%char then (EmptyString, rest)
      else let (head, tail) := partition_space rest in (String c head, tail)
  end.

(** [str.lower] on the letters A to Z; other bytes are left as they are,
    which decides the comparison with ["bearer"] as Python does. *)
Definition lower_char (c : Ascii.ascii) : Ascii.ascii :=
  let n := Ascii.nat_of_ascii c in
  if ((65 <=? n) && (n <=? 90))%nat then Ascii.ascii_of_nat (n + 32) else c.

Fixpoint lower (s : string) : string :=
  match s with
  | EmptyString => EmptyString
  | String c rest => String (lower_char c) (lower rest)
  end.

(** [not authorization]: [None] and the empty string are false. *)
Definition falsy (s : option string) : bool :=
  match s with
  | None => true
  | Some EmptyString => true
  | Some _ => false
  end.

(** [fastapi.security.utils.get_authorization_scheme_param]:
<<
    if not authorization_header_value: return "", ""
    scheme, _, param = authorization_header_value.partition(" ")
    return scheme, param
>> *)
Definition get_authorization_scheme_param (authorization : option string)
  : string * string :=
  match authorization with
  | None => (EmptyString, EmptyString)
  | Some s => if falsy (Some s) then (EmptyString, EmptyString)
              else partition_space s
  end.

(** [OAuth2PasswordBearerWithCookie.__call__]: [authorization] is the
    cookie [access_token] of the request, [None] when there is none.
<<
    scheme, param = get_authorization_scheme_param(authorization)
    if not authorization or scheme.lower() != "bearer":
        if self.auto_error: raise exceptions.NotAuthorizedException()
        else: return None
    return param
>> *)
Definition oauth2_call (auto_error : bool) (authorization : option string)
  : auth_exn + option string :=
  let (scheme, param) := get_authorization_scheme_param authorization in
  if falsy authorization || negb (String.eqb (lower scheme) "bearer") then
    if auto_error then inl NotAuthorizedException else inr None
  else inr (Some param).

(** *** Access tokens *)

(** A value of the token payload: a string or an integer (times are
    integers, microseconds). *)
Inductive claim : Type :=
| ClaimStr (s : string)
| ClaimInt (n : Z).

(** A [dict] with string keys, in insertion order. *)
Definition dict : Type := list (string * claim).

(** [d.get(key)]. *)
Fixpoint dict_get (d : dict) (key : string) : option claim :=
  match d with
  | [] => None
  | (k, v) :: rest => if String.eqb k key then Some v else dict_get rest key
  end.

(** [d.update({key: value})]: replaces the value of an existing key in
    place, appends a new key. *)
Fixpoint dict_set (d : dict) (key : string) (value : claim) : dict :=
  match d with
  | [] => [(key, value)]
  | (k, v) :: rest =>
      if String.eqb k key then (k, value) :: rest
      else (k, v) :: dict_set rest key value
  end.

(** [timedelta(minutes=15)], in microseconds. *)
Definition fifteen_minutes : Z := 15 * 60 * 1000000.

(** The dictionary [to_encode] of [create_access_token] when it is handed
    to [jwt.encode]; [now] is [datetime.utcnow()].  A [timedelta] is false
    when it is zero.
<<
    to_encode = data.copy()
    if expires_delta: expire = datetime.utcnow() + expires_delta
    else: expire = datetime.utcnow() + timedelta(minutes=15)
    to_encode.update({"exp": expire})
>> *)
Definition to_encode (data : dict) (expires_delta : option Z) (now : Z) : dict :=
  let expire :=
    match expires_delta with
    | Some delta => if Z.eqb delta 0 then now + fifteen_minutes else now + delta
    | None => now + fifteen_minutes
    end in
  dict_set data "exp" (ClaimInt expire).

(** [str(v)] as the validation of [TokenData.username] applies it to a
    value that is not a string. *)
Definition str_validator (v : claim) : string :=
  match v with
  | ClaimStr s => s
  | ClaimInt n => DecimalString.NilZero.string_of_int (Z.to_int n)
  end.

Section Jwt.

(** [jose.jwt] with the secret key and the algorithm of the settings:
    [jwt.encode(payload, SECRET_KEY, algorithm=ALGORITHM)] and
    [jwt.decode(token, SECRET_KEY, algorithms=[ALGORITHM])], which raises
    [JWTError] on a token it does not accept. *)
Variable jwt_encode : dict -> string.
Variable jwt_decode : string -> auth_exn + dict.

Definition create_access_token (data : dict) (expires_delta : option Z)
  (now : Z) : string :=
  jwt_encode (to_encode data expires_delta now).

(** [get_current_user]:
<<
    try:
        payload = jwt.decode(token, ...)
        username = payload.get("sub")
        if username is None: raise credentials_exception
        token_data = TokenData(username=username)
    except JWTError:
        raise credentials_exception
    user = get_user_by_mail(db_session, token_data.username)
    if user is None: raise credentials_exception
    return user
>> *)
Definition get_current_user (db : Db.Session) (token : string)
  : auth_exn + string :=
  match jwt_decode token with
  | inl JWTError => inl NotAuthorizedException
  | inl e => inl e
  | inr payload =>
      match dict_get payload "sub" with
      | None => inl NotAuthorizedException
      | Some username =>
          match Db.get_user_by_mail db (str_validator username) with
          | None => inl NotAuthorizedException
          | Some user => inr user
          end
      end
  end.

End Jwt.

End Security.

(** ** Further data for the scenarios *)

Module Scenarios.

(** A store with two known users, two known restaurants and three rating
    rows: [alice] rated [A] and [B], [bob] rated [A]. *)
Definition db_rated : Db.Session :=
  Db.mkSession ["alice@example.org"; "bob@example.org"] ["A"; "B"]
    [Db.Bewertung.mk "alice@example.org" "A" "fine" 4 10;
     Db.Bewertung.mk "bob@example.org" "A" "loud" 2 20;
     Db.Bewertung.mk "alice@example.org" "B" "slow" 3 30]
    100 true.

(** A store like [Examples.db_known] whose rating table is not keyed by
    the (user, restaurant) pair. *)
Definition db_unkeyed : Db.Session :=
  Db.mkSession ["alice@example.org"] ["A"] [] 100 false.

Definition bob : UserBase.t := UserBase.mk "bob@example.org".
Definition carol : UserBase.t := UserBase.mk "carol@example.org".

(** A nearby-search service with three pages: [A], then [B], then [C]. *)
Definition three_pages (_ : Gapi.Params) (page_token : option string)
  : outcome Gapi.NearbyResponse :=
  match page_token with
  | None => ret (Gapi.mkNearbyResponse [Examples.cand_A] (Some "t1"))
  | Some "t1" => ret (Gapi.mkNearbyResponse [Examples.cand_B] (Some "t2"))
  | Some _ => ret (Gapi.mkNearbyResponse [Examples.cand_C] (Some ""))
  end.

(** A nearby-search service whose second request fails. *)
Definition second_page_fails (_ : Gapi.Params) (page_token : option string)
  : outcome Gapi.NearbyResponse :=
  match page_token with
  | None => ret (Gapi.mkNearbyResponse [Examples.cand_A] (Some "t1"))
  | Some _ => raise HTTPError
  end.

(** A details service that knows [A] only. *)
Definition details_of_A (place_id : string) : outcome Gapi.DetailsResult :=
  if String.eqb place_id "A"
  then ret (Gapi.mkDetailsResult None None None None)
  else raise HTTPError.

Definition a_params : Gapi.Params :=
  Gapi.mkParams "italian" 0 0 true 5000 "restaurant" "de".

(** A token library for the scenarios: one token, which decodes to the
    payload given. *)
Definition one_token (_ : Security.dict) : string := "token".
Definition decodes_to (payload : Security.dict) (token : string)
  : Security.auth_exn + Security.dict :=
  if String.eqb token "token" then inr payload else inl Security.JWTError.

End Scenarios.

(** ** Candidate lists on which the filter loop skips nothing it should remove *)

(** The candidate is one the filter removes: its external rating is below
    the threshold. *)
Definition below (min_rating : Z) (res : Restaurant) : bool :=
  match rating res with
  | Some v => v <? min_rating
  | None => false
  end.

(** No candidate to remove is directly followed by another one. *)
Fixpoint no_neighbours_below (min_rating : Z) (rests : list Restaurant) : Prop :=
  match rests with
  | [] => True
  | x :: t =>
      match t with
      | [] => True
      | y :: _ => below min_rating x = true -> below min_rating y = false
      end
      /\ no_neighbours_below min_rating t
  end.

(** * Properties *)

(** ** The filter stage *)

Lemma remove_member (x : Restaurant) (l : list Restaurant) :
  In x l -> exists l', PyList.remove x l = inr l'.
Proof.
  induction l as [|y t IH]; simpl; intros Hin; [contradiction|].
  destruct (Restaurant_eq_dec y x) as [->|Hne]; [eexists; reflexivity|].
  destruct Hin as [Heq|Hin]; [contradiction|].
  destruct (IH Hin) as [t' Ht']. rewrite Ht'. eexists; reflexivity.
Qed.

Lemma remove_length (x : Restaurant) (l l' : list Restaurant) :
  PyList.remove x l = inr l' -> List.length l = S (List.length l').
Proof.
  revert l'. induction l as [|y t IH]; simpl; intros l' H; [discriminate|].
  destruct (Restaurant_eq_dec y x).
  - inversion H; subst. reflexivity.
  - destruct (PyList.remove x t) as [e|t'] eqn:Ht; [discriminate|].
    inversion H; subst. simpl. f_equal. apply IH. reflexivity.
Qed.

Lemma remove_incl (x : Restaurant) (l l' : list Restaurant) :
  PyList.remove x l = inr l' -> incl l' l.
Proof.
  revert l'. induction l as [|y t IH]; simpl; intros l' H; [discriminate|].
  destruct (Restaurant_eq_dec y x).
  - inversion H; subst. apply incl_tl, incl_refl.
  - destruct (PyList.remove x t) as [e|t'] eqn:Ht; [discriminate|].
    inversion H; subst.
    apply incl_cons; [left; reflexivity|].
    apply incl_tl. apply IH. reflexivity.
Qed.

(** The loop ends within [S (length rests - i)] turns. *)
Lemma filter_rating_loop_terminates (min_rating : Z) (fuel : nat) :
  forall (i : nat) (rests : list Restaurant),
    (List.length rests - i < fuel)%nat ->
    exists out e, filter_rating_loop fuel i rests min_rating = Some (out, e).
Proof.
  induction fuel as [|fuel IH]; intros i rests Hfuel; [lia|].
  simpl. destruct (nth_error rests i) as [res|] eqn:Hnth; [|eauto].
  assert (Hi : (i < List.length rests)%nat)
    by (apply nth_error_Some; congruence).
  destruct (py_lt (rating res) min_rating) as [e|[|]]; [eauto| |].
  - destruct (PyList.remove res rests) as [e|rests'] eqn:Hrm; [eauto|].
    apply remove_length in Hrm. apply IH. lia.
  - apply IH. lia.
Qed.

(** What the loop leaves in the list are candidates it found there, and
    the only exception it can end with is the [TypeError] of the
    comparison. *)
Lemma filter_rating_loop_frame (min_rating : Z) (fuel : nat) :
  forall (i : nat) (rests out : list Restaurant) (e : option exn),
    filter_rating_loop fuel i rests min_rating = Some (out, e) ->
    incl out rests /\ (e = None \/ e = Some TypeError).
Proof.
  induction fuel as [|fuel IH]; intros i rests out e H; [discriminate|].
  simpl in H. destruct (nth_error rests i) as [res|] eqn:Hnth.
  - destruct (py_lt (rating res) min_rating) as [e'|[|]] eqn:Hlt.
    + inversion H; subst. split; [apply incl_refl|].
      unfold py_lt in Hlt. destruct (rating res); inversion Hlt. now right.
    + destruct (remove_member res rests) as [rests' Hrm];
        [eapply nth_error_In; eassumption|].
      rewrite Hrm in H. apply IH in H. destruct H as [Hincl He].
      split; [|exact He].
      eapply incl_tran; [exact Hincl|]. eapply remove_incl; eassumption.
    + apply IH in H. exact H.
  - inversion H; subst. split; [apply incl_refl|now left].
Qed.

(** [filter_rating] always ends: with a list of candidates out of the
    input, and with no exception or the comparison's [TypeError]. *)
Lemma filter_rating_total (rests : list Restaurant) (min_rating : Z) :
  exists out e,
    filter_rating rests min_rating = Some (out, e)
    /\ incl out rests /\ (e = None \/ e = Some TypeError).
Proof.
  destruct (filter_rating_loop_terminates min_rating (S (List.length rests))
              0 rests) as (out & e & H); [lia|].
  exists out, e. split; [exact H|].
  eapply filter_rating_loop_frame. exact H.
Qed.

(** C1 (code at the failing input).  Specification: the filter returns
    exactly the candidates whose external rating, 0 when absent, is at
    least the threshold.  On [[B (3); D (2)]] with threshold 4 the code
    removes [B] while iterating, the iterator then skips [D], and the list
    returned still holds [D], whose rating 2 is below 4 (the specified
    result is empty).  On a candidate without external rating the
    comparison raises [TypeError], already with threshold 0, where the
    candidate should be retained. *)
Theorem filter_rating_skips_after_removal :
  filter_rating [Examples.cand_B; Examples.cand_D] 4
    = Some ([Examples.cand_D], None)
  /\ rating Examples.cand_D = Some 2
  /\ Spec.filter_stage [Examples.cand_B; Examples.cand_D] 4 = []
  /\ filter_rating [Examples.cand_N] 0 = Some ([Examples.cand_N], Some TypeError)
  /\ Spec.filter_stage [Examples.cand_N] 0 = [Examples.cand_N].
Proof. repeat split; vm_compute; reflexivity. Qed.

(** ** The weights *)

Lemma select_turn_eq (res : Restaurant) :
  select_turn res = (zero_filled res, inr (Spec.weight res)).
Proof.
  destruct res as [id nm g [ext|] [own|] h m p]; reflexivity.
Qed.

Lemma select_weights_eq (rests : list Restaurant) :
  select_weights rests = (map zero_filled rests, inr (map Spec.weight rests)).
Proof.
  induction rests as [|res t IH]; cbn [select_weights map]; [reflexivity|].
  rewrite select_turn_eq, IH. reflexivity.
Qed.

Lemma select_restaurant_eq (rests : list Restaurant) (u : Q) :
  select_restaurant rests u
  = (map zero_filled rests,
     PyRandom.choices (map zero_filled rests) (map Spec.weight rests) u).
Proof. unfold select_restaurant. rewrite select_weights_eq. reflexivity. Qed.

(** C7.  For every candidate list, the weights the loop of
    [select_restaurant] appends are, candidate by candidate,
    [own_rating * 4 + rating * 2] with an absent rating counted as 0, and
    these are the weights handed to the draw; a candidate without own
    rating and with external rating 5 gets the weight 10. *)
Theorem select_restaurant_weights (rests : list Restaurant) (u : Q) :
  snd (select_weights rests) = inr (map Spec.weight rests)
  /\ snd (select_restaurant rests u)
     = PyRandom.choices (fst (select_weights rests)) (map Spec.weight rests) u
  /\ (forall id nm g h m p,
        snd (select_turn (mkRestaurant id nm g (Some 5) None h m p)) = inr 10).
Proof.
  split; [|split].
  - rewrite select_weights_eq. reflexivity.
  - rewrite select_restaurant_eq, select_weights_eq. reflexivity.
  - intros. reflexivity.
Qed.

(** ** The draw *)

Section Bisect.

Variable a : list Z.
Variable x : Q.

Lemma Qltb_true (y : Q) : PyRandom.Qltb x y = true -> (x < y)%Q.
Proof.
  unfold PyRandom.Qltb. intros H. apply negb_true_iff in H.
  apply Qnot_le_lt. intros Hle. apply Qle_bool_iff in Hle. congruence.
Qed.

Lemma Qltb_false (y : Q) : PyRandom.Qltb x y = false -> (y <= x)%Q.
Proof.
  unfold PyRandom.Qltb. intros H. apply negb_false_iff in H.
  apply Qle_bool_iff. exact H.
Qed.

Lemma midpoint (lo hi : nat) :
  (lo < hi)%nat -> (lo <= (lo + hi) / 2 < hi)%nat.
Proof.
  intros H.
  pose proof (Nat.div_mod_eq (lo + hi) 2) as Hd.
  pose proof (Nat.mod_upper_bound (lo + hi) 2) as Hm.
  lia.
Qed.

(** The binary search ends within [S (hi - lo)] turns, between [lo] and
    [hi]; the item left of the result is at most [x] (unless the result is
    [lo]) and the item at the result is above [x] (unless the result is
    [hi]). *)
Lemma bisect_loop_result (fuel : nat) :
  forall lo hi : nat,
    (hi - lo < fuel)%nat -> (lo <= hi)%nat -> (hi <= List.length a)%nat ->
    exists i,
      PyRandom.bisect_loop fuel a x lo hi = Some (inr i)
      /\ (lo <= i <= hi)%nat
      /\ (i = lo \/
          (lo < i)%nat /\ exists v, nth_error a (i - 1) = Some v /\ (inject_Z v <= x)%Q)
      /\ (i = hi \/ exists v, nth_error a i = Some v /\ (x < inject_Z v)%Q).
Proof.
  induction fuel as [|fuel IH]; intros lo hi Hfuel Hle Hlen; [lia|].
  cbn [PyRandom.bisect_loop]. destruct (lo <? hi)%nat eqn:Hlt.
  - apply Nat.ltb_lt in Hlt. pose proof (midpoint lo hi Hlt) as Hmid.
    destruct (nth_error a ((lo + hi) / 2)) as [a_mid|] eqn:Hnth.
    2:{ apply nth_error_None in Hnth. lia. }
    destruct (PyRandom.Qltb x (inject_Z a_mid)) eqn:Hcmp.
    + destruct (IH lo ((lo + hi) / 2)%nat) as (i & Hi & Hrange & Hleft & Hright);
        [lia|lia|lia|].
      exists i. split; [exact Hi|]. split; [lia|]. split; [exact Hleft|].
      right. destruct Hright as [->|Hright]; [|exact Hright].
      exists a_mid. split; [exact Hnth|]. apply Qltb_true. exact Hcmp.
    + destruct (IH (S ((lo + hi) / 2)) hi) as (i & Hi & Hrange & Hleft & Hright);
        [lia|lia|lia|].
      exists i. split; [exact Hi|]. split; [lia|]. split; [|exact Hright].
      right. destruct Hleft as [->|[Hlo Hleft]]; [|split; [lia|exact Hleft]].
      split; [lia|]. exists a_mid. simpl. rewrite Nat.sub_0_r.
      split; [exact Hnth|]. apply Qltb_false. exact Hcmp.
  - apply Nat.ltb_ge in Hlt. exists lo.
    split; [reflexivity|]. split; [lia|]. split; [now left|].
    left. lia.
Qed.

End Bisect.

Lemma accumulate_from_length (weights : list Z) :
  forall acc, List.length (PyRandom.accumulate_from acc weights) = List.length weights.
Proof.
  induction weights as [|w t IH]; intros acc; simpl; [reflexivity|].
  now rewrite IH.
Qed.

Lemma accumulate_from_nth (weights : list Z) :
  forall acc i w,
    nth_error weights i = Some w ->
    nth_error (PyRandom.accumulate_from acc weights) i
    = Some (acc + Spec.Zsum (firstn i weights) + w).
Proof.
  induction weights as [|w0 t IH]; intros acc i w Hnth.
  - destruct i; discriminate.
  - destruct i as [|i]; simpl in *.
    + inversion Hnth; subst. f_equal. lia.
    + rewrite (IH _ _ _ Hnth). f_equal. lia.
Qed.

Lemma Zsum_firstn_S (weights : list Z) :
  forall i w,
    nth_error weights i = Some w ->
    Spec.Zsum (firstn (S i) weights) = Spec.Zsum (firstn i weights) + w.
Proof.
  induction weights as [|w0 t IH]; intros i w Hnth.
  - destruct i; discriminate.
  - destruct i as [|i].
    + simpl in *. inversion Hnth; subst. lia.
    + change (firstn (S (S i)) (w0 :: t)) with (w0 :: firstn (S i) t).
      change (firstn (S i) (w0 :: t)) with (w0 :: firstn i t).
      simpl in Hnth. cbn [Spec.Zsum fold_right].
      fold (Spec.Zsum (firstn (S i) t)). fold (Spec.Zsum (firstn i t)).
      rewrite (IH _ _ Hnth). lia.
Qed.

Lemma last_cons (l : list Z) : forall y d, last (y :: l) d = last l y.
Proof.
  induction l as [|z t IH]; intros y d; [reflexivity|].
  change (last (y :: z :: t) d) with (last (z :: t) d).
  rewrite !IH. reflexivity.
Qed.

Lemma last_accumulate_from (weights : list Z) :
  forall acc,
    last (PyRandom.accumulate_from acc weights) acc = acc + Spec.Zsum weights.
Proof.
  induction weights as [|w t IH]; intros acc; [simpl; lia|].
  cbn [PyRandom.accumulate_from]. rewrite last_cons, IH.
  cbn [Spec.Zsum fold_right]. fold (Spec.Zsum t). lia.
Qed.

Lemma last_item_accumulate (weights : list Z) :
  weights <> [] ->
  PyRandom.last_item (PyRandom.accumulate weights) = inr (Spec.Zsum weights).
Proof.
  destruct weights as [|w t]; [congruence|]. intros _.
  unfold PyRandom.accumulate. cbn [PyRandom.accumulate_from PyRandom.last_item].
  rewrite last_accumulate_from. reflexivity.
Qed.

Section Choices.

Context {A : Type}.
Variable population : list A.
Variable weights : list Z.
Variable u : Q.
Hypothesis same_length : List.length weights = List.length population.
Hypothesis not_empty : population <> [].

(** A total of the weights that is not positive is refused. *)
Lemma choices_no_positive_total :
  Spec.Zsum weights <= 0 ->
  PyRandom.choices population weights u = Some (inl ValueError).
Proof.
  intros Htotal. unfold PyRandom.choices, PyRandom.accumulate.
  rewrite accumulate_from_length, same_length, Nat.eqb_refl. cbn [negb].
  fold (PyRandom.accumulate weights).
  rewrite last_item_accumulate.
  2:{ intros ->. destruct population; [congruence|discriminate]. }
  apply Z.leb_le in Htotal. rewrite Htotal. reflexivity.
Qed.

(** With a positive total and [u] in [[0, 1)], the draw returns an item
    of the population whose weight is positive. *)
Lemma choices_positive_total :
  0 < Spec.Zsum weights -> (0 <= u)%Q -> (u < 1)%Q ->
  exists i chosen w,
    PyRandom.choices population weights u = Some (inr chosen)
    /\ nth_error population i = Some chosen
    /\ nth_error weights i = Some w
    /\ 0 < w.
Proof.
  intros Htotal Hu0 Hu1.
  assert (Hn : (0 < List.length population)%nat).
  { destruct population; [congruence|simpl; lia]. }
  set (total := Spec.Zsum weights) in *.
  set (x := (u * inject_Z total)%Q).
  assert (Hx0 : (0 <= x)%Q).
  { apply Qmult_le_0_compat; [exact Hu0|].
    change 0%Q with (inject_Z 0). rewrite <- Zle_Qle. lia. }
  assert (Hx1 : (x < inject_Z total)%Q).
  { unfold x. rewrite <- (Qmult_1_l (inject_Z total)) at 2.
    apply Qmult_lt_compat_r; [|exact Hu1].
    change 0%Q with (inject_Z 0). rewrite <- Zlt_Qlt. exact Htotal. }
  destruct (bisect_loop_result (PyRandom.accumulate weights) x
              (S (List.length population - 1 - 0))
              0%nat (List.length population - 1)%nat)
    as (i & Hi & Hrange & Hleft & Hright).
  { lia. } { lia. }
  { unfold PyRandom.accumulate. rewrite accumulate_from_length. lia. }
  destruct (nth_error population i) as [chosen|] eqn:Hpop.
  2:{ apply nth_error_None in Hpop. lia. }
  destruct (nth_error weights i) as [w|] eqn:Hw.
  2:{ apply nth_error_None in Hw. lia. }
  exists i, chosen, w.
  split; [|split; [exact Hpop|split; [exact Hw|]]].
  - unfold PyRandom.choices, PyRandom.accumulate.
    rewrite accumulate_from_length, same_length, Nat.eqb_refl. cbn [negb].
    fold (PyRandom.accumulate weights).
    rewrite last_item_accumulate.
    2:{ intros Hnil. rewrite Hnil in Hw. destruct i; discriminate. }
    fold total. destruct (total <=? 0) eqn:Hle; [apply Z.leb_le in Hle; lia|].
    fold x. unfold PyRandom.bisect. rewrite Hi, Hpop. reflexivity.
  - (* the item at [i] is above [x] *)
    pose proof (accumulate_from_nth weights 0 i w Hw) as Hai.
    fold (PyRandom.accumulate weights) in Hai.
    assert (Habove : (x < inject_Z (0 + Spec.Zsum (firstn i weights) + w))%Q).
    { destruct Hright as [Hhi|(v & Hv & Hxv)].
      - assert (Hall : firstn (S i) weights = weights).
        { apply firstn_all2. lia. }
        pose proof (Zsum_firstn_S weights i w Hw) as Hsum.
        rewrite Hall in Hsum. fold total in Hsum.
        replace (0 + Spec.Zsum (firstn i weights) + w) with total by lia.
        exact Hx1.
      - rewrite Hai in Hv. inversion Hv; subst. exact Hxv. }
    destruct Hleft as [Hlo|(Hlo & v & Hv & Hvx)].
    + subst i. cbn [firstn Spec.Zsum fold_right] in Habove.
      apply (Qle_lt_trans _ _ _ Hx0) in Habove.
      change 0%Q with (inject_Z 0) in Habove.
      rewrite <- Zlt_Qlt in Habove. lia.
    + destruct i as [|j]; [lia|].
      cbn [Nat.sub] in Hv. rewrite Nat.sub_0_r in Hv.
      destruct (nth_error weights j) as [w'|] eqn:Hw'.
      2:{ apply nth_error_None in Hw'. lia. }
      pose proof (accumulate_from_nth weights 0 j w' Hw') as Haj.
      fold (PyRandom.accumulate weights) in Haj.
      rewrite Haj in Hv. inversion Hv; subst.
      pose proof (Zsum_firstn_S weights j w' Hw') as Hsum.
      apply (Qle_lt_trans _ _ _ Hvx) in Habove.
      rewrite <- Zlt_Qlt in Habove. lia.
Qed.

End Choices.

Lemma all_zero_total (rests : list Restaurant) :
  Forall (fun res => Spec.weight res = 0) rests -> Spec.total_weight rests = 0.
Proof.
  unfold Spec.total_weight.
  induction 1 as [|res t Hres _ IH]; [reflexivity|].
  cbn [map Spec.Zsum fold_right]. fold (Spec.Zsum (map Spec.weight t)).
  rewrite Hres, IH. reflexivity.
Qed.

Lemma draw_refused (rests : list Restaurant) (u : Q) :
  rests <> [] -> Spec.total_weight rests <= 0 ->
  snd (select_restaurant rests u) = Some (inl ValueError).
Proof.
  intros Hne Htotal. rewrite select_restaurant_eq. cbn [snd].
  apply choices_no_positive_total.
  - now rewrite !length_map.
  - destruct rests; [congruence|discriminate].
  - exact Htotal.
Qed.

(** With a positive total and a random number of [[0, 1)], the draw
    returns a candidate of the list whose weight is positive. *)
Lemma draw_positive (rests : list Restaurant) (u : Q) :
  (0 <= u)%Q -> (u < 1)%Q -> 0 < Spec.total_weight rests ->
  exists res,
    In res rests /\ 0 < Spec.weight res
    /\ snd (select_restaurant rests u) = Some (inr (zero_filled res)).
Proof.
  intros Hu0 Hu1 Htotal.
  assert (Hne : rests <> []) by (intros ->; vm_compute in Htotal; discriminate).
  destruct (choices_positive_total (map zero_filled rests)
              (map Spec.weight rests) u) as (i & chosen & w & Hc & Hp & Hw & Hpos).
  - now rewrite !length_map.
  - destruct rests; [congruence|discriminate].
  - exact Htotal.
  - exact Hu0.
  - exact Hu1.
  - rewrite nth_error_map in Hp, Hw.
    destruct (nth_error rests i) as [res|] eqn:Hres; [|discriminate].
    cbn [option_map] in Hp, Hw. inversion Hp; inversion Hw; subst.
    exists res. split; [eapply nth_error_In; exact Hres|].
    split; [exact Hpos|].
    rewrite select_restaurant_eq. exact Hc.
Qed.

(** C3 (amended).  For every non-empty candidate list and every random
    number in [[0, 1)]: when the weights sum to more than 0, the draw
    returns one candidate of the list (as the weighting loop left it), and
    that candidate's weight is positive, so a candidate of weight 0 stays in
    the population but is not drawn; when the weights sum to 0 or less, in
    particular when every candidate's weight is 0, the draw raises
    [ValueError]: there is no fallback to a uniform choice. *)
Theorem select_restaurant_draw (rests : list Restaurant) (u : Q) :
  rests <> [] -> (0 <= u)%Q -> (u < 1)%Q ->
  (0 < Spec.total_weight rests ->
   exists res,
     In res rests /\ 0 < Spec.weight res
     /\ snd (select_restaurant rests u) = Some (inr (zero_filled res)))
  /\ (Spec.total_weight rests <= 0 ->
      snd (select_restaurant rests u) = Some (inl ValueError))
  /\ (Forall (fun res => Spec.weight res = 0) rests ->
      snd (select_restaurant rests u) = Some (inl ValueError)).
Proof.
  intros Hne Hu0 Hu1. split; [|split].
  - apply draw_positive; assumption.
  - apply draw_refused. exact Hne.
  - intros Hzero. apply draw_refused; [exact Hne|].
    rewrite (all_zero_total _ Hzero). lia.
Qed.

Lemma select_restaurant_draw_witness :
  exists res,
    In res [Examples.cand_N; Examples.cand_A] /\ 0 < Spec.weight res
    /\ snd (select_restaurant [Examples.cand_N; Examples.cand_A] (1 # 2))
       = Some (inr (zero_filled res)).
Proof.
  apply (select_restaurant_draw [Examples.cand_N; Examples.cand_A] (1 # 2)).
  - discriminate.
  - unfold Qle; simpl; lia.
  - unfold Qlt; simpl; lia.
  - vm_compute. reflexivity.
Defined.

(** C3 (counterexample).  The list holding the one candidate [N], which
    has neither an own nor an external rating, is not empty and all its
    weights are 0; the draw does not fall back to a uniform choice, it
    raises [ValueError].  And next to [A] (weight 10) the candidate [N]
    (weight 0) is drawn for no random number: the draw always returns
    [A]. *)
Lemma select_restaurant_all_zero_fails :
  Spec.weight Examples.cand_N = 0
  /\ snd (select_restaurant [Examples.cand_N] (1 # 2)) = Some (inl ValueError)
  /\ (forall u : Q, (0 <= u)%Q -> (u < 1)%Q ->
        snd (select_restaurant [Examples.cand_N; Examples.cand_A] u)
        = Some (inr (zero_filled Examples.cand_A))).
Proof.
  split; [reflexivity|]. split; [vm_compute; reflexivity|].
  intros u Hu0 Hu1.
  destruct (draw_positive [Examples.cand_N; Examples.cand_A] u Hu0 Hu1)
    as (res & Hin & Hpos & Hres); [reflexivity|].
  destruct Hin as [<-|[<-|[]]].
  - vm_compute in Hpos. discriminate.
  - exact Hres.
Qed.

(** ** What the later stages change in a candidate *)

Lemma fill_user_rating_frame (db : Db.Session) (user : UserBase.t)
  (rests : list Restaurant) :
  map (fun res => set_own_rating res None) (fill_user_rating db rests user)
  = map (fun res => set_own_rating res None) rests.
Proof.
  unfold fill_user_rating. rewrite map_map. apply map_ext. intros res.
  destruct (Db.get_bewertung_from_user_to_rest db user (as_base res));
    reflexivity.
Qed.

(** C9 (amended).  The stages after the search mutate no candidate field
    other than [own_rating] and [rating]: the filter only removes
    candidates (what it leaves are candidates of its input, field by field),
    the enrichment changes at most [own_rating], and the weighting loop of
    [select_restaurant] replaces an absent [own_rating] and an absent
    [rating] by 0, keeping present ratings, every other field, and the
    list's members and their order. *)
Theorem later_stages_frame (db : Db.Session) (user : UserBase.t)
  (rests : list Restaurant) (min_rating : Z) (u : Q) :
  (exists out e,
      filter_rating rests min_rating = Some (out, e) /\ incl out rests)
  /\ map (fun res => set_own_rating res None) (fill_user_rating db rests user)
     = map (fun res => set_own_rating res None) rests
  /\ fst (select_restaurant rests u)
     = map (fun res =>
              mkRestaurant (place_id res) (name res) (geometry res)
                (match rating res with Some v => Some v | None => Some 0 end)
                (match own_rating res with Some v => Some v | None => Some 0 end)
                (homepage res) (maps_url res) (phone_number res))
           rests.
Proof.
  split; [|split].
  - destruct (filter_rating_total rests min_rating) as (out & e & H & Hincl & _).
    exists out, e. split; assumption.
  - apply fill_user_rating_frame.
  - rewrite select_restaurant_eq. cbn [fst]. apply map_ext. intros res.
    unfold zero_filled. destruct (rating res), (own_rating res); reflexivity.
Qed.

(** C9 (counterexample).  The candidate [N] comes out of the search with
    no external rating; after [select_restaurant] its [rating] field holds
    0: the draw stage has mutated the external rating. *)
Lemma select_restaurant_writes_rating :
  map rating [Examples.cand_N; Examples.cand_A] = [None; Some 5]
  /\ map rating
       (fst (select_restaurant [Examples.cand_N; Examples.cand_A] (1 # 2)))
     = [Some 0; Some 5].
Proof. split; vm_compute; reflexivity. Qed.

(** ** The empty candidate list *)

(** C10.  When the search returned candidates and the filter left none of
    them, the list reaching the draw is empty: the weighted-choice routine
    raises [IndexError], [select_restaurant] ends with it, and
    [search_for_restaurant] ends with the same exception, the store
    untouched; it is neither the search-service error nor the
    referential-integrity error. *)
Theorem empty_draw_raises
  (gapi : FilterRest -> outcome (list Restaurant))
  (default_comment : string) (default_rating : Z)
  (db : Db.Session) (user : UserBase.t) (user_f : FilterRest) (u : Q)
  (google_rests : list Restaurant) :
  gapi user_f = inr google_rests ->
  apply_filter google_rests user_f = Some ([], None) ->
  PyRandom.choices (@nil Restaurant) [] u = Some (inl IndexError)
  /\ select_restaurant [] u = ([], Some (inl IndexError))
  /\ search_for_restaurant gapi default_comment default_rating db user user_f u
     = Some (db, inl IndexError).
Proof.
  intros Hsearch Hfilter. split; [reflexivity|]. split; [reflexivity|].
  unfold search_for_restaurant. rewrite Hsearch, Hfilter. reflexivity.
Qed.

Lemma empty_draw_raises_witness :
  PyRandom.choices (@nil Restaurant) [] (1 # 2) = Some (inl IndexError)
  /\ select_restaurant [] (1 # 2) = ([], Some (inl IndexError))
  /\ search_for_restaurant Examples.gapi_B "" 0 Examples.db_fresh
       Examples.alice (Examples.a_filter 4) (1 # 2)
     = Some (Examples.db_fresh, inl IndexError).
Proof.
  apply (empty_draw_raises Examples.gapi_B "" 0 Examples.db_fresh
           Examples.alice (Examples.a_filter 4) (1 # 2) [Examples.cand_B]).
  - reflexivity.
  - vm_compute. reflexivity.
Defined.

(** ** The rating store *)

Lemma find_eqb_present (s : string) (l : list string) :
  In s l -> find (String.eqb s) l = Some s.
Proof.
  induction l as [|y t IH]; simpl; intros Hin; [contradiction|].
  destruct (String.eqb s y) eqn:Heq.
  - apply String.eqb_eq in Heq. now subst.
  - destruct Hin as [->|Hin]; [|exact (IH Hin)].
    rewrite String.eqb_refl in Heq. discriminate.
Qed.

Lemma find_eqb_absent (s : string) (l : list string) :
  ~ In s l -> find (String.eqb s) l = None.
Proof.
  induction l as [|y t IH]; simpl; intros Hnin; [reflexivity|].
  destruct (String.eqb s y) eqn:Heq.
  - apply String.eqb_eq in Heq. subst. exfalso. apply Hnin. now left.
  - apply IH. intros Hin. apply Hnin. now right.
Qed.

Lemma find_eqb_cases (s : string) (l : list string) :
  {In s l /\ find (String.eqb s) l = Some s}
  + {~ In s l /\ find (String.eqb s) l = None}.
Proof.
  destruct (in_dec string_dec s l) as [Hin|Hnin].
  - left. split; [exact Hin|]. now apply find_eqb_present.
  - right. split; [exact Hnin|]. now apply find_eqb_absent.
Qed.

Lemma existsb_eqb_In (s : string) (l : list string) :
  existsb (String.eqb s) l = true <-> In s l.
Proof.
  rewrite existsb_exists. split.
  - intros (y & Hy & Heq). apply String.eqb_eq in Heq. now subst.
  - intros Hin. exists s. split; [exact Hin|apply String.eqb_refl].
Qed.

Lemma row_match_iff (email place_id : string) (b : Db.Bewertung.t) :
  Db.row_match email place_id b = true
  <-> Db.Bewertung.person_email b = email /\ Db.Bewertung.place_id b = place_id.
Proof.
  unfold Db.row_match. rewrite andb_true_iff, !String.eqb_eq. reflexivity.
Qed.

Lemma no_hits {A : Type} (f : A -> bool) (l : list A) :
  List.length (filter f l) = 0%nat ->
  filter f l = [] /\ filter (fun x => negb (f x)) l = l.
Proof.
  induction l as [|x t IH]; simpl; intros H; [split; reflexivity|].
  destruct (f x); [discriminate|].
  destruct (IH H) as [H1 H2]. cbn [negb]. rewrite H2. split; [exact H1|reflexivity].
Qed.

Lemma with_bewertungen_same (db : Db.Session) :
  Db.with_bewertungen db (Db.bewertung_table db) = db.
Proof. destruct db; reflexivity. Qed.

Lemma existsb_false_iff_count {A : Type} (f : A -> bool) (l : list A) :
  existsb f l = false <-> List.length (filter f l) = 0%nat.
Proof.
  induction l as [|x t IH]; [split; reflexivity|].
  cbn [existsb filter]. destruct (f x); cbn [orb List.length];
    [split; discriminate|exact IH].
Qed.



(** The row [create_bewertung] builds from an assessment. *)
Lemma create_bewertung_found (db : Db.Session) (assessment : RestBewertungCreate.t) :
  In (UserBase.email (RestBewertungCreate.person assessment))
     (Db.person_table db) ->
  In (RestaurantBase.place_id (RestBewertungCreate.restaurant assessment))
     (Db.restaurant_table db) ->
  Db.create_bewertung db assessment
  = Db.add_and_commit db
      (Db.Bewertung.mk
         (UserBase.email (RestBewertungCreate.person assessment))
         (RestaurantBase.place_id (RestBewertungCreate.restaurant assessment))
         (RestBewertungCreate.comment assessment)
         (RestBewertungCreate.rating assessment)
         (Db.clock db)).
Proof.
  intros Hu Hr. unfold Db.create_bewertung, Db.get_user_by_mail,
    Db.get_restaurant_by_id.
  rewrite (find_eqb_present _ _ Hu), (find_eqb_present _ _ Hr). reflexivity.
Qed.

(** The insert goes through when the table is not keyed by the pair, or
    the pair has no row yet. *)
Lemma add_and_commit_ok (db : Db.Session) (row : Db.Bewertung.t) :
  Db.bewertung_keyed db = false
  \/ Db.count_ratings db (Db.Bewertung.person_email row)
       (Db.Bewertung.place_id row) = 0%nat ->
  Db.add_and_commit db row
  = (Db.with_bewertungen db (Db.bewertung_table db ++ [row])%list, inr row).
Proof.
  unfold Db.add_and_commit, Db.count_ratings. intros [Hkey|Hnone].
  - rewrite Hkey. reflexivity.
  - apply existsb_false_iff_count in Hnone. rewrite Hnone, andb_false_r.
    reflexivity.
Qed.


(** What a successful [create_bewertung] is. *)
Lemma create_bewertung_ok (db : Db.Session) (assessment : RestBewertungCreate.t) :
  In (UserBase.email (RestBewertungCreate.person assessment))
     (Db.person_table db) ->
  In (RestaurantBase.place_id (RestBewertungCreate.restaurant assessment))
     (Db.restaurant_table db) ->
  Db.count_ratings db (UserBase.email (RestBewertungCreate.person assessment))
    (RestaurantBase.place_id (RestBewertungCreate.restaurant assessment))
  = 0%nat ->
  Db.create_bewertung db assessment
  = (Db.with_bewertungen db
       (Db.bewertung_table db
        ++ [Db.Bewertung.mk
              (UserBase.email (RestBewertungCreate.person assessment))
              (RestaurantBase.place_id (RestBewertungCreate.restaurant assessment))
              (RestBewertungCreate.comment assessment)
              (RestBewertungCreate.rating assessment)
              (Db.clock db)])%list,
     inr (Db.Bewertung.mk
            (UserBase.email (RestBewertungCreate.person assessment))
            (RestaurantBase.place_id (RestBewertungCreate.restaurant assessment))
            (RestBewertungCreate.comment assessment)
            (RestBewertungCreate.rating assessment)
            (Db.clock db))).
Proof.
  intros Hu Hr Hnone. rewrite (create_bewertung_found db assessment Hu Hr).
  apply add_and_commit_ok. right. exact Hnone.
Qed.






(** Where the rating table is not keyed by the pair, nothing in
    [create_bewertung] stands in for the key: the second create succeeds
    like the first and the pair has two rows. *)
Lemma create_bewertung_unkeyed_two_rows :
  exists db1 row1 db2 row2,
    Db.create_bewertung Scenarios.db_unkeyed (Examples.assessment_A "good" 4)
    = (db1, inr row1)
    /\ Db.create_bewertung db1 (Examples.assessment_A "good" 4) = (db2, inr row2)
    /\ Db.count_ratings db2 "alice@example.org" "A" = 2%nat.
Proof. do 4 eexists. repeat split. Qed.

(** X3.  [update_bewertung] when no row matches the old assessment: the store is
    left as it was; the value returned is the lookup for the new
    assessment. *)
Lemma update_bewertung_no_match (db : Db.Session)
  (old_bewertung new_bewertung : RestBewertungCreate.t) :
  Db.count_ratings db
    (UserBase.email (RestBewertungCreate.person old_bewertung))
    (RestaurantBase.place_id (RestBewertungCreate.restaurant old_bewertung))
  = 0%nat ->
  Db.update_bewertung db old_bewertung new_bewertung
  = (db, Db.get_bewertung_from_user_to_rest db
           (RestBewertungCreate.person new_bewertung)
           (RestBewertungCreate.restaurant new_bewertung)).
Proof.
  unfold Db.count_ratings, Db.update_bewertung. intros Hcount.
  assert (Hsame :
    map (fun b =>
           if Db.row_match
                (UserBase.email (RestBewertungCreate.person old_bewertung))
                (RestaurantBase.place_id
                   (RestBewertungCreate.restaurant old_bewertung)) b
           then Db.update_row new_bewertung b else b)
        (Db.bewertung_table db)
    = Db.bewertung_table db).
  { induction (Db.bewertung_table db) as [|b t IH]; [reflexivity|].
    simpl in Hcount |- *.
    destruct (Db.row_match _ _ b); [discriminate|].
    f_equal. apply IH. exact Hcount. }
  rewrite Hsame. destruct db; reflexivity.
Qed.

(** C8 (code at the failing input).  Specification: an update against a
    rating that does not exist is a silent no-op.  On a store without
    ratings [update_bewertung] leaves the store as it was and returns
    [None]; [update_assessment] then reads [kommentar] of that [None] and
    ends with [AttributeError] instead of returning. *)
Theorem update_assessment_no_match_raises :
  Db.update_bewertung Examples.db_known (Examples.assessment_A "good" 4)
    (Examples.assessment_A "better" 5)
  = (Examples.db_known, None)
  /\ update_assessment Examples.db_known (Examples.assessment_A "good" 4)
       (Examples.assessment_A "better" 5)
     = (Examples.db_known, inl AttributeError).
Proof. split; reflexivity. Qed.

(** ** The bookkeeping after the draw *)

(** X9.  A restaurant the store does not know: nothing is persisted. *)
Lemma bookkeeping_unknown (default_comment : string) (default_rating : Z)
  (db : Db.Session) (user : UserBase.t) (restaurant : Restaurant) :
  ~ In (place_id restaurant) (Db.restaurant_table db) ->
  bookkeeping default_comment default_rating db user restaurant
  = (db, inr restaurant).
Proof.
  intros Hnew. unfold bookkeeping, Db.get_restaurant_by_id.
  rewrite (find_eqb_absent _ _ Hnew). reflexivity.
Qed.

(** A restaurant the store knows: the code goes on to [create_restaurant],
    which the primary key of the restaurant table refuses. *)
Lemma bookkeeping_known (default_comment : string) (default_rating : Z)
  (db : Db.Session) (user : UserBase.t) (restaurant : Restaurant) :
  In (place_id restaurant) (Db.restaurant_table db) ->
  bookkeeping default_comment default_rating db user restaurant
  = (db, inl IntegrityError).
Proof.
  intros Hknown. unfold bookkeeping, Db.create_restaurant, Db.get_restaurant_by_id.
  cbn [as_base RestaurantBase.place_id].
  rewrite (find_eqb_present _ _ Hknown). reflexivity.
Qed.

(** C4 (code at the failing input).  Specification: a chosen restaurant
    that the store does not know yet is persisted, together with a rating
    entry for the requesting user.  The store [db_fresh] knows the user and
    no restaurant; the search returns [A], [B], [C], the filter keeps [A] and
    [C], the draw picks [A].  The code tests
    [if get_restaurant_by_id(...)], which is false for the unknown [A], and
    returns with the store as it was: [A] is not persisted and no rating is
    created. *)
Theorem search_for_restaurant_skips_new_restaurant :
  Db.get_restaurant_by_id Examples.db_fresh "A" = None
  /\ search_for_restaurant Examples.gapi_ABC "" 0 Examples.db_fresh
       Examples.alice (Examples.a_filter 4) (1 # 2)
     = Some (Examples.db_fresh, inr (zero_filled Examples.cand_A))
  /\ Db.restaurant_table Examples.db_fresh = []
  /\ Db.bewertung_table Examples.db_fresh = [].
Proof. repeat split; vm_compute; reflexivity. Qed.

(** ** The place search *)

Section GapiFacts.

Variable nearbysearch : Gapi.Params -> option string -> outcome Gapi.NearbyResponse.
Variable details : string -> outcome Gapi.DetailsResult.

Lemma nearby_search_S (fuel : nat) (params : Gapi.Params) (token : option string) :
  Gapi.nearby_search nearbysearch (S fuel) params token
  = match nearbysearch params token with
    | inl e => Some (inl e)
    | inr resp_obj =>
        if Gapi.truthy (Gapi.next_page_token resp_obj) then
          match Gapi.nearby_search nearbysearch fuel params
                  (Gapi.next_page_token resp_obj) with
          | None => None
          | Some (inl e) => Some (inl e)
          | Some (inr more) => Some (ret (Gapi.results resp_obj ++ more)%list)
          end
        else Some (ret (Gapi.results resp_obj))
    end.
Proof. reflexivity. Qed.

(** More fuel does not change a result. *)
Lemma nearby_search_fuel (fuel : nat) :
  forall params token r,
    Gapi.nearby_search nearbysearch fuel params token = Some r ->
    Gapi.nearby_search nearbysearch (S fuel) params token = Some r.
Proof.
  induction fuel as [|fuel IH]; intros params token r H; [discriminate|].
  rewrite nearby_search_S in H. rewrite nearby_search_S.
  destruct (nearbysearch params token) as [e|resp_obj]; [exact H|].
  destruct (Gapi.truthy (Gapi.next_page_token resp_obj)); [|exact H].
  destruct (Gapi.nearby_search nearbysearch fuel params
              (Gapi.next_page_token resp_obj)) as [r'|] eqn:Hrec;
    [|discriminate].
  rewrite (IH _ _ _ Hrec). exact H.
Qed.

(** A service that answers the first request with a page and a token, and
    the request for that token with a page and no token: the search
    returns the first page's results followed by the second's. *)
Lemma nearby_search_two_pages (params : Gapi.Params)
  (page1 page2 : list Restaurant) (token : string) (fuel : nat) :
  nearbysearch params None
  = inr (Gapi.mkNearbyResponse page1 (Some token)) ->
  token <> "" ->
  nearbysearch params (Some token)
  = inr (Gapi.mkNearbyResponse page2 None) ->
  Gapi.nearby_search nearbysearch (S (S fuel)) params None
  = Some (inr (page1 ++ page2)%list).
Proof.
  intros H1 Htoken H2. cbn [Gapi.nearby_search]. rewrite H1.
  cbn [Gapi.next_page_token Gapi.results Gapi.truthy].
  destruct (String.eqb token "") eqn:Heq;
    [apply String.eqb_eq in Heq; contradiction|].
  cbn [negb]. rewrite H2. reflexivity.
Qed.

End GapiFacts.

(** C2 (code at the failing input).  Specification: [search_restaurant]
    returns the concatenation of all pages' results, each enriched with the
    detail fields.  For the two-page service (first [A], [B] and a token,
    then [C] and no token) the [try] block does compute that list, [A], [B],
    [C] with website, map link, phone number and address filled in, but the
    function ends without a [return] statement: the caller gets [None]. *)
Theorem search_restaurant_returns_none :
  Gapi.search_restaurant Examples.two_pages Examples.some_details 2
    "italian" 0 0 5000
  = Some (inr Gapi.PyNone)
  /\ Gapi.search_restaurant_try Examples.two_pages Examples.some_details 2
       "italian" 0 0 5000
     = Some (inr (map (fun restaurant =>
                         Gapi.with_details restaurant
                           (Gapi.mkDetailsResult
                              (Some ("https://" ++ place_id restaurant ++ ".example"))
                              (Some ("https://maps.example/" ++ place_id restaurant))
                              (Some "+49 621 0000")
                              (Some "Coblitzallee 1, Mannheim")))
                      [Examples.cand_A; Examples.cand_B; Examples.cand_C])).
Proof. split; vm_compute; reflexivity. Qed.

(** ** Further properties of the stages *)

(** Scenario of the specification: minimum rating 4 and the candidates
    [A] (5), [B] (3), [C] (4) give [A], [C]. *)
Example filter_rating_scenario :
  filter_rating [Examples.cand_A; Examples.cand_B; Examples.cand_C] 4
  = Some ([Examples.cand_A; Examples.cand_C], None).
Proof. vm_compute. reflexivity. Qed.

(** X8.  The filter loop always ends, within the fuel [filter_rating] gives it,
    and the only exception it ends with is the comparison's [TypeError]. *)
Lemma filter_rating_terminates (rests : list Restaurant) (min_rating : Z) :
  exists out e,
    filter_rating rests min_rating = Some (out, e)
    /\ (List.length out <= List.length rests)%nat
    /\ (e = None \/ e = Some TypeError).
Proof.
  destruct (filter_rating_loop_terminates min_rating (S (List.length rests))
              0 rests) as (out & e & H); [lia|].
  exists out, e. split; [exact H|].
  assert (Hlen : forall fuel i l out' e',
             filter_rating_loop fuel i l min_rating = Some (out', e') ->
             (List.length out' <= List.length l)%nat).
  { induction fuel as [|fuel IH]; intros i l out' e' Hl; [discriminate|].
    simpl in Hl. destruct (nth_error l i) as [res|];
      [|inversion Hl; subst; lia].
    destruct (py_lt (rating res) min_rating) as [e0|[|]];
      [inversion Hl; subst; lia| |eapply IH; exact Hl].
    destruct (PyList.remove res l) as [e0|l'] eqn:Hrm;
      [inversion Hl; subst; lia|].
    apply remove_length in Hrm. apply IH in Hl. lia. }
  split; [eapply Hlen; exact H|].
  eapply filter_rating_loop_frame. exact H.
Qed.

(** X6.  Enrichment is idempotent: a second pass over the enriched list,
    against the same store, changes nothing. *)
Lemma fill_user_rating_idempotent (db : Db.Session) (user : UserBase.t)
  (rests : list Restaurant) :
  fill_user_rating db (fill_user_rating db rests user) user
  = fill_user_rating db rests user.
Proof.
  unfold fill_user_rating. rewrite map_map. apply map_ext. intros res.
  destruct (Db.get_bewertung_from_user_to_rest db user (as_base res))
    as [assessment|] eqn:Hfound.
  - replace (as_base (set_own_rating res (Some (Db.Bewertung.rating assessment))))
      with (as_base res) by reflexivity.
    rewrite Hfound. reflexivity.
  - rewrite Hfound. reflexivity.
Qed.

(** X4.  [update_bewertung] keeps the rows, their order, owner, restaurant and
    timestamp; a row of the old assessment's (user, restaurant) pair gets
    the new comment and rating, every other row is left as it was. *)
Lemma update_bewertung_replaces (db : Db.Session)
  (old_bewertung new_bewertung : RestBewertungCreate.t) :
  Forall2
    (fun before after =>
       Db.Bewertung.person_email after = Db.Bewertung.person_email before
       /\ Db.Bewertung.place_id after = Db.Bewertung.place_id before
       /\ Db.Bewertung.zeitstempel after = Db.Bewertung.zeitstempel before
       /\ if Db.row_match
               (UserBase.email (RestBewertungCreate.person old_bewertung))
               (RestaurantBase.place_id
                  (RestBewertungCreate.restaurant old_bewertung)) before
          then Db.Bewertung.kommentar after
               = RestBewertungCreate.comment new_bewertung
               /\ Db.Bewertung.rating after
                  = RestBewertungCreate.rating new_bewertung
          else after = before)
    (Db.bewertung_table db)
    (Db.bewertung_table (fst (Db.update_bewertung db old_bewertung new_bewertung))).
Proof.
  unfold Db.update_bewertung. cbn [fst Db.with_bewertungen Db.bewertung_table].
  induction (Db.bewertung_table db) as [|b t IH]; [constructor|].
  cbn [map]. constructor; [|exact IH].
  destruct (Db.row_match _ _ b); repeat split.
Qed.

Lemma update_bewertung_no_match_witness :
  Db.update_bewertung Examples.db_known (Examples.assessment_A "good" 4)
    (Examples.assessment_A "better" 5)
  = (Examples.db_known, None).
Proof.
  apply (update_bewertung_no_match Examples.db_known
           (Examples.assessment_A "good" 4) (Examples.assessment_A "better" 5)).
  reflexivity.
Defined.

(** X5.  Scenario of the specification: a delete for a (user, restaurant) pair
    without rating removes nothing, returns 0 and raises nothing. *)
Lemma delete_bewertung_no_match (db : Db.Session) (user : UserBase.t)
  (rest : RestaurantBase.t) :
  Db.count_ratings db (UserBase.email user) (RestaurantBase.place_id rest)
  = 0%nat ->
  delete_assessment db user rest = (db, 0).
Proof.
  unfold Db.count_ratings, delete_assessment, Db.delete_bewertung.
  intros Hcount. rewrite Hcount.
  assert (Hsame :
    filter (fun b => negb (Db.row_match (UserBase.email user)
                             (RestaurantBase.place_id rest) b))
           (Db.bewertung_table db)
    = Db.bewertung_table db).
  { induction (Db.bewertung_table db) as [|b t IH]; [reflexivity|].
    simpl in Hcount |- *.
    destruct (Db.row_match _ _ b); [discriminate|].
    cbn [negb]. f_equal. apply IH. exact Hcount. }
  rewrite Hsame. destruct db; reflexivity.
Qed.

Lemma delete_bewertung_no_match_witness :
  delete_assessment Examples.db_known Examples.alice (RestaurantBase.mk "A")
  = (Examples.db_known, 0).
Proof.
  apply (delete_bewertung_no_match Examples.db_known Examples.alice
           (RestaurantBase.mk "A")).
  reflexivity.
Defined.

Lemma nearby_search_two_pages_witness :
  Gapi.nearby_search Examples.two_pages 2
    (Gapi.mkParams "italian" 0 0 true 5000 "restaurant" "de") None
  = Some (inr [Examples.cand_A; Examples.cand_B; Examples.cand_C]).
Proof.
  apply (nearby_search_two_pages Examples.two_pages
           (Gapi.mkParams "italian" 0 0 true 5000 "restaurant" "de")
           [Examples.cand_A; Examples.cand_B] [Examples.cand_C] "t1" 0).
  - reflexivity.
  - discriminate.
  - reflexivity.
Defined.

Lemma bookkeeping_unknown_witness :
  bookkeeping "" 0 Examples.db_fresh Examples.alice Examples.cand_A
  = (Examples.db_fresh, inr Examples.cand_A).
Proof.
  apply (bookkeeping_unknown "" 0 Examples.db_fresh Examples.alice
           Examples.cand_A).
  simpl. intros H. exact H.
Defined.

(** ** The fuel of the model is enough *)

(** The draw ends for every candidate list and every random number of
    [[0, 1)]. *)
Lemma select_restaurant_ends (rests : list Restaurant) (u : Q) :
  (0 <= u)%Q -> (u < 1)%Q ->
  exists o, snd (select_restaurant rests u) = Some o.
Proof.
  intros Hu0 Hu1. destruct rests as [|res t]; [eexists; reflexivity|].
  destruct (Z_le_gt_dec (Spec.total_weight (res :: t)) 0) as [Hle|Hgt].
  - eexists. apply draw_refused; [discriminate|exact Hle].
  - destruct (draw_positive (res :: t) u Hu0 Hu1) as (chosen & _ & _ & H);
      [lia|].
    eexists. exact H.
Qed.

(** X10.  [search_for_restaurant] ends, with a result or an exception,
    whatever the search returns: neither the filter loop nor the binary
    search of the draw runs out of the fuel the model gives them. *)
Lemma search_for_restaurant_ends
  (gapi : FilterRest -> outcome (list Restaurant))
  (default_comment : string) (default_rating : Z)
  (db : Db.Session) (user : UserBase.t) (user_f : FilterRest) (u : Q) :
  (0 <= u)%Q -> (u < 1)%Q ->
  exists db' r,
    search_for_restaurant gapi default_comment default_rating db user user_f u
    = Some (db', r).
Proof.
  intros Hu0 Hu1. unfold search_for_restaurant, apply_filter.
  destruct (gapi user_f) as [e|google_rests]; [eauto|].
  destruct (filter_rating_total google_rests (filter_min_rating user_f))
    as (out & e & Hfilter & _ & _).
  rewrite Hfilter. destruct e as [e|]; [eauto|].
  destruct (select_restaurant_ends (fill_user_rating db out user) u Hu0 Hu1)
    as [o Ho].
  destruct (select_restaurant (fill_user_rating db out user) u) as [left drawn].
  cbn [snd] in Ho. subst drawn.
  destruct o as [e|restaurant]; [eauto|].
  destruct (bookkeeping default_comment default_rating db user restaurant)
    as [db' r].
  eauto.
Qed.

Lemma search_for_restaurant_ends_witness :
  exists db' r,
    search_for_restaurant Examples.gapi_ABC "" 0 Examples.db_known
      Examples.alice (Examples.a_filter 4) (1 # 2)
    = Some (db', r).
Proof.
  apply (search_for_restaurant_ends Examples.gapi_ABC "" 0 Examples.db_known
           Examples.alice (Examples.a_filter 4) (1 # 2)).
  - unfold Qle; simpl; lia.
  - unfold Qlt; simpl; lia.
Defined.

(** * Further properties of the code *)

(** ** The place search, page by page *)

Section PagingFacts.

Variable nearbysearch : Gapi.Params -> option string -> outcome Gapi.NearbyResponse.
Variable params : Gapi.Params.

(** After a run of pages the search goes on with the request the run ends
    at: its result follows the pages of the run, its exception replaces
    them. *)
Lemma nearby_search_after_run (pages : list (list Restaurant)) :
  forall (token next : option string),
    page_run nearbysearch params token pages next ->
    forall (fuel : nat) (r : outcome (list Restaurant)),
      Gapi.nearby_search nearbysearch fuel params next = Some r ->
      Gapi.nearby_search nearbysearch (List.length pages + fuel) params token
      = Some (match r with
              | inl e => inl e
              | inr rest => inr (List.concat pages ++ rest)%list
              end).
Proof.
  induction pages as [|page pages IH]; intros token next Hrun fuel r Hr.
  - inversion Hrun; subst. cbn [List.length Nat.add List.concat app].
    rewrite Hr. destruct r; reflexivity.
  - inversion Hrun as [|? ? tok' ? ? Hpage Htruthy Hrest]; subst.
    cbn [List.length Nat.add]. rewrite nearby_search_S, Hpage.
    cbn [Gapi.next_page_token Gapi.results]. rewrite Htruthy.
    rewrite (IH _ _ Hrest _ _ Hr).
    destruct r as [e|rest]; [reflexivity|].
    unfold ret. cbn [List.concat]. rewrite app_assoc. reflexivity.
Qed.

End PagingFacts.

(** X1.  However many pages the service hands out: when the requests,
    starting without token, are answered by [pages] one after the other,
    each with a token that counts as true, and the next request by a page
    [last] whose token is missing or empty, [nearby_search] returns the
    results of all these pages in order, with any fuel beyond the number
    of requests. *)
Theorem nearby_search_all_pages
  (nearbysearch : Gapi.Params -> option string -> outcome Gapi.NearbyResponse)
  (params : Gapi.Params) (pages : list (list Restaurant))
  (next final : option string) (last : list Restaurant) (spare : nat) :
  page_run nearbysearch params None pages next ->
  nearbysearch params next = inr (Gapi.mkNearbyResponse last final) ->
  Gapi.truthy final = false ->
  Gapi.nearby_search nearbysearch (List.length pages + S spare) params None
  = Some (inr (List.concat pages ++ last)%list).
Proof.
  intros Hrun Hlast Hfinal.
  apply (nearby_search_after_run nearbysearch params pages None next Hrun
           (S spare) (inr last)).
  rewrite nearby_search_S, Hlast. cbn [Gapi.next_page_token Gapi.results].
  rewrite Hfinal. reflexivity.
Qed.

Lemma nearby_search_all_pages_witness :
  Gapi.nearby_search Scenarios.three_pages 3 Scenarios.a_params None
  = Some (inr [Examples.cand_A; Examples.cand_B; Examples.cand_C]).
Proof.
  apply (nearby_search_all_pages Scenarios.three_pages Scenarios.a_params
           [[Examples.cand_A]; [Examples.cand_B]] (Some "t2") (Some "")
           [Examples.cand_C] 0).
  - eapply page_run_next; [reflexivity|reflexivity|].
    eapply page_run_next; [reflexivity|reflexivity|].
    apply page_run_stop.
  - reflexivity.
  - reflexivity.
Defined.

(** X11.  A request that fails after any number of pages ends the whole
    listing with that failure: the pages already fetched are not
    returned. *)
Theorem nearby_search_page_failure
  (nearbysearch : Gapi.Params -> option string -> outcome Gapi.NearbyResponse)
  (params : Gapi.Params) (pages : list (list Restaurant))
  (next : option string) (e : exn) (spare : nat) :
  page_run nearbysearch params None pages next ->
  nearbysearch params next = inl e ->
  Gapi.nearby_search nearbysearch (List.length pages + S spare) params None
  = Some (inl e).
Proof.
  intros Hrun Hfail.
  apply (nearby_search_after_run nearbysearch params pages None next Hrun
           (S spare) (inl e)).
  rewrite nearby_search_S, Hfail. reflexivity.
Qed.

Lemma nearby_search_page_failure_witness :
  Gapi.nearby_search Scenarios.second_page_fails 2 Scenarios.a_params None
  = Some (inl HTTPError).
Proof.
  apply (nearby_search_page_failure Scenarios.second_page_fails
           Scenarios.a_params [[Examples.cand_A]] (Some "t1") HTTPError 0).
  - eapply page_run_next; [reflexivity|reflexivity|apply page_run_stop].
  - reflexivity.
Defined.

(** X12.  One details request that fails makes [place_details] fail as a
    whole: no list is returned, not even for the restaurants before it. *)
Theorem place_details_failure
  (details : string -> outcome Gapi.DetailsResult)
  (restaurants : list Restaurant) (restaurant : Restaurant) (e : exn) :
  In restaurant restaurants ->
  details (place_id restaurant) = inl e ->
  exists e', Gapi.place_details details restaurants = inl e'.
Proof.
  induction restaurants as [|first rest IH]; intros Hin Hfail; [contradiction|].
  cbn [Gapi.place_details].
  destruct (details (place_id first)) as [e1|resp_obj] eqn:Hfirst; [eauto|].
  destruct Hin as [->|Hin]; [congruence|].
  destruct (IH Hin Hfail) as [e' He']. rewrite He'. eauto.
Qed.

Lemma place_details_failure_witness :
  exists e',
    Gapi.place_details Scenarios.details_of_A [Examples.cand_A; Examples.cand_B]
    = inl e'.
Proof.
  apply (place_details_failure Scenarios.details_of_A
           [Examples.cand_A; Examples.cand_B] Examples.cand_B HTTPError).
  - right. left. reflexivity.
  - reflexivity.
Defined.

(** X13.  Whatever the service does, [search_restaurant] hands its caller
    no list: a call that ends returns [None] or raises, and what it raises
    is never the [httpx.HTTPError] itself (that one is replaced by
    [GoogleApiException]). *)
Theorem search_restaurant_outcomes
  (nearbysearch : Gapi.Params -> option string -> outcome Gapi.NearbyResponse)
  (details : string -> outcome Gapi.DetailsResult)
  (fuel : nat) (cuisin : string) (loc_lat loc_lng radius : Z)
  (r : outcome (Gapi.py_optional (list Restaurant))) :
  Gapi.search_restaurant nearbysearch details fuel cuisin loc_lat loc_lng radius
  = Some r ->
  r = inr Gapi.PyNone \/ exists e, r = inl e /\ e <> HTTPError.
Proof.
  assert (Htr : forall e, Gapi.translate e <> HTTPError)
    by (intros []; discriminate).
  unfold Gapi.search_restaurant, Gapi.search_restaurant_try.
  destruct (Gapi.nearby_search nearbysearch fuel _ None) as [[e|restaurants]|];
    [| |discriminate].
  - intros H; inversion H; subst. right. eauto.
  - destruct (Gapi.place_details details restaurants) as [e|extended];
      intros H; inversion H; subst; [right; eauto|now left].
Qed.

Lemma search_restaurant_outcomes_witness :
  @inl exn (Gapi.py_optional (list Restaurant))
       (GoogleApiException "Can't communicate with the Google API")
  = inr Gapi.PyNone
  \/ exists e,
       @inl exn (Gapi.py_optional (list Restaurant))
            (GoogleApiException "Can't communicate with the Google API")
       = inl e /\ e <> HTTPError.
Proof.
  apply (search_restaurant_outcomes Scenarios.second_page_fails
           Scenarios.details_of_A 2 "italian" 0 0 5000).
  reflexivity.
Defined.

(** ** The rating store: how the operations compose *)

(** X14.  [delete_bewertung] returns the number of rating rows the pair
    had, leaves no row of the pair, and leaves the rows of every other
    pair, the persons and the restaurants as they were. *)
Theorem delete_bewertung_effect (db : Db.Session) (user : UserBase.t)
  (rest : RestaurantBase.t) :
  snd (Db.delete_bewertung db user rest)
  = Z.of_nat (Db.count_ratings db (UserBase.email user)
                (RestaurantBase.place_id rest))
  /\ Db.count_ratings (fst (Db.delete_bewertung db user rest))
       (UserBase.email user) (RestaurantBase.place_id rest) = 0%nat
  /\ (forall email place_id : string,
        email <> UserBase.email user \/ place_id <> RestaurantBase.place_id rest ->
        filter (Db.row_match email place_id)
               (Db.bewertung_table (fst (Db.delete_bewertung db user rest)))
        = filter (Db.row_match email place_id) (Db.bewertung_table db))
  /\ Db.person_table (fst (Db.delete_bewertung db user rest)) = Db.person_table db
  /\ Db.restaurant_table (fst (Db.delete_bewertung db user rest))
     = Db.restaurant_table db.
Proof.
  unfold Db.delete_bewertung, Db.count_ratings.
  cbn [fst snd Db.with_bewertungen Db.bewertung_table Db.person_table
       Db.restaurant_table].
  split; [reflexivity|]. split; [|split; [|split; reflexivity]].
  - induction (Db.bewertung_table db) as [|b t IH]; [reflexivity|].
    cbn [filter]. destruct (Db.row_match _ _ b) eqn:Hb; cbn [negb]; [exact IH|].
    cbn [filter]. rewrite Hb. exact IH.
  - intros email place_id Hother.
    induction (Db.bewertung_table db) as [|b t IH]; [reflexivity|].
    cbn [filter].
    destruct (Db.row_match (UserBase.email user) (RestaurantBase.place_id rest) b)
      eqn:Hb; cbn [negb].
    + destruct (Db.row_match email place_id b) eqn:Hb'; [|exact IH].
      apply row_match_iff in Hb, Hb'. destruct Hb as [E1 P1], Hb' as [E2 P2].
      destruct Hother as [H|H]; exfalso; apply H; congruence.
    + cbn [filter]. rewrite IH. reflexivity.
Qed.

(** The lookup after a successful [create_bewertung] for a pair without
    rating finds the row created. *)
Lemma lookup_after_create (db : Db.Session) (assessment : RestBewertungCreate.t) :
  In (UserBase.email (RestBewertungCreate.person assessment))
     (Db.person_table db) ->
  In (RestaurantBase.place_id (RestBewertungCreate.restaurant assessment))
     (Db.restaurant_table db) ->
  Db.count_ratings db (UserBase.email (RestBewertungCreate.person assessment))
    (RestaurantBase.place_id (RestBewertungCreate.restaurant assessment))
  = 0%nat ->
  Db.get_bewertung_from_user_to_rest (fst (Db.create_bewertung db assessment))
    (RestBewertungCreate.person assessment)
    (RestBewertungCreate.restaurant assessment)
  = Some (Db.Bewertung.mk
            (UserBase.email (RestBewertungCreate.person assessment))
            (RestaurantBase.place_id (RestBewertungCreate.restaurant assessment))
            (RestBewertungCreate.comment assessment)
            (RestBewertungCreate.rating assessment)
            (Db.clock db)).
Proof.
  intros Hu Hr Hcount. rewrite (create_bewertung_ok db assessment Hu Hr Hcount).
  unfold Db.get_bewertung_from_user_to_rest.
  cbn [fst Db.with_bewertungen Db.bewertung_table].
  unfold Db.count_ratings in Hcount. apply no_hits in Hcount.
  destruct Hcount as [Hnone _].
  assert (Hold : forall db' rows,
             filter (Db.row_match
                       (UserBase.email (RestBewertungCreate.person assessment))
                       (RestaurantBase.place_id
                          (RestBewertungCreate.restaurant assessment))) rows = [] ->
             forall tail,
               find (Db.joined_match db' (RestBewertungCreate.person assessment)
                       (RestBewertungCreate.restaurant assessment)) (rows ++ tail)
               = find (Db.joined_match db' (RestBewertungCreate.person assessment)
                         (RestBewertungCreate.restaurant assessment)) tail).
  { intros db' rows. induction rows as [|b t IH]; intros Hrows tail; [reflexivity|].
    cbn [filter] in Hrows. cbn [app find].
    destruct (Db.row_match _ _ b) eqn:Hb; [discriminate|].
    unfold Db.joined_match at 1. unfold Db.row_match in Hb.
    rewrite <- andb_assoc, Hb, andb_false_r. apply IH. exact Hrows. }
  rewrite (Hold _ _ Hnone). cbn [find].
  unfold Db.joined_match.
  cbn [Db.Bewertung.person_email Db.Bewertung.place_id Db.person_table
       Db.restaurant_table Db.with_bewertungen].
  rewrite (proj2 (existsb_eqb_In _ _) Hu), (proj2 (existsb_eqb_In _ _) Hr),
    !String.eqb_refl. reflexivity.
Qed.

(** X15.  Insert and lookup: after [create_bewertung] succeeded for a pair
    that had no rating, [get_bewertung_from_user_to_rest] for that user and
    restaurant returns the row created, with the comment and the rating
    given. *)
Theorem create_then_lookup (db : Db.Session) (assessment : RestBewertungCreate.t) :
  In (UserBase.email (RestBewertungCreate.person assessment))
     (Db.person_table db) ->
  In (RestaurantBase.place_id (RestBewertungCreate.restaurant assessment))
     (Db.restaurant_table db) ->
  Db.count_ratings db (UserBase.email (RestBewertungCreate.person assessment))
    (RestaurantBase.place_id (RestBewertungCreate.restaurant assessment))
  = 0%nat ->
  exists row,
    snd (Db.create_bewertung db assessment) = inr row
    /\ Db.get_bewertung_from_user_to_rest (fst (Db.create_bewertung db assessment))
         (RestBewertungCreate.person assessment)
         (RestBewertungCreate.restaurant assessment)
       = Some row
    /\ Db.Bewertung.kommentar row = RestBewertungCreate.comment assessment
    /\ Db.Bewertung.rating row = RestBewertungCreate.rating assessment.
Proof.
  intros Hu Hr Hcount. eexists. split; [|split; [|split]].
  - rewrite (create_bewertung_ok db assessment Hu Hr Hcount). reflexivity.
  - apply lookup_after_create; assumption.
  - reflexivity.
  - reflexivity.
Qed.

Lemma create_then_lookup_witness :
  exists row,
    snd (Db.create_bewertung Examples.db_known (Examples.assessment_A "good" 4))
    = inr row
    /\ Db.get_bewertung_from_user_to_rest
         (fst (Db.create_bewertung Examples.db_known
                 (Examples.assessment_A "good" 4)))
         Examples.alice (RestaurantBase.mk "A")
       = Some row
    /\ Db.Bewertung.kommentar row = "good"
    /\ Db.Bewertung.rating row = 4.
Proof.
  apply (create_then_lookup Examples.db_known (Examples.assessment_A "good" 4)).
  - simpl. left. reflexivity.
  - simpl. left. reflexivity.
  - reflexivity.
Defined.

(** X16.  Insert and delete: creating a rating for a pair that had none
    and deleting the pair's ratings gives back the store as it was, and the
    delete reports one row. *)
Theorem create_then_delete (db : Db.Session) (assessment : RestBewertungCreate.t) :
  In (UserBase.email (RestBewertungCreate.person assessment))
     (Db.person_table db) ->
  In (RestaurantBase.place_id (RestBewertungCreate.restaurant assessment))
     (Db.restaurant_table db) ->
  Db.count_ratings db (UserBase.email (RestBewertungCreate.person assessment))
    (RestaurantBase.place_id (RestBewertungCreate.restaurant assessment))
  = 0%nat ->
  delete_assessment (fst (add_assessment db assessment))
    (RestBewertungCreate.person assessment)
    (RestBewertungCreate.restaurant assessment)
  = (db, 1).
Proof.
  intros Hu Hr Hcount. unfold add_assessment, delete_assessment.
  rewrite (create_bewertung_ok db assessment Hu Hr Hcount). cbn [fst].
  unfold Db.delete_bewertung, Db.count_ratings in *.
  cbn [Db.with_bewertungen Db.bewertung_table Db.person_table
       Db.restaurant_table Db.clock].
  rewrite !filter_app. apply no_hits in Hcount. destruct Hcount as [H0 Hkeep].
  rewrite H0, Hkeep. cbn [filter app].
  assert (Hnew :
    Db.row_match (UserBase.email (RestBewertungCreate.person assessment))
      (RestaurantBase.place_id (RestBewertungCreate.restaurant assessment))
      (Db.Bewertung.mk
         (UserBase.email (RestBewertungCreate.person assessment))
         (RestaurantBase.place_id (RestBewertungCreate.restaurant assessment))
         (RestBewertungCreate.comment assessment)
         (RestBewertungCreate.rating assessment) (Db.clock db)) = true).
  { apply row_match_iff. split; reflexivity. }
  rewrite Hnew. cbn [negb app List.length].
  rewrite app_nil_r. destruct db; reflexivity.
Qed.

Lemma create_then_delete_witness :
  delete_assessment
    (fst (add_assessment Examples.db_known (Examples.assessment_A "good" 4)))
    Examples.alice (RestaurantBase.mk "A")
  = (Examples.db_known, 1).
Proof.
  apply (create_then_delete Examples.db_known (Examples.assessment_A "good" 4)).
  - simpl. left. reflexivity.
  - simpl. left. reflexivity.
  - reflexivity.
Defined.

(** ** The rating store: invariants *)



Lemma updated_row_same_pair (email place_id e p : string)
  (new_bewertung : RestBewertungCreate.t) (b : Db.Bewertung.t) :
  Db.row_match e p
    (if Db.row_match email place_id b then Db.update_row new_bewertung b else b)
  = Db.row_match e p b.
Proof. destruct (Db.row_match email place_id b); reflexivity. Qed.

(** X17.  Referential integrity is an invariant of the store operations:
    if every rating row refers to a person and a restaurant of the store,
    the same holds after [create_bewertung], [update_bewertung],
    [delete_bewertung] and [create_restaurant], whatever their arguments
    and whether they succeed or not. *)
Theorem referential_integrity_preserved (db : Db.Session)
  (assessment old_bewertung new_bewertung : RestBewertungCreate.t)
  (user : UserBase.t) (rest : RestaurantBase.t) :
  referential_integrity db ->
  referential_integrity (fst (Db.create_bewertung db assessment))
  /\ referential_integrity (fst (Db.update_bewertung db old_bewertung new_bewertung))
  /\ referential_integrity (fst (Db.delete_bewertung db user rest))
  /\ referential_integrity (fst (Db.create_restaurant db rest)).
Proof.
  unfold referential_integrity. intros Hdb. split; [|split; [|split]].
  - unfold Db.create_bewertung, Db.get_user_by_mail, Db.get_restaurant_by_id.
    destruct (find_eqb_cases
                (UserBase.email (RestBewertungCreate.person assessment))
                (Db.person_table db)) as [[Hu ->]|[Hu ->]]; [|exact Hdb].
    destruct (find_eqb_cases
                (RestaurantBase.place_id (RestBewertungCreate.restaurant assessment))
                (Db.restaurant_table db)) as [[Hr ->]|[Hr ->]]; [|exact Hdb].
    unfold Db.add_and_commit.
    destruct (Db.bewertung_keyed db && existsb _ (Db.bewertung_table db));
      [exact Hdb|].
    cbn [fst Db.with_bewertungen Db.bewertung_table Db.person_table
         Db.restaurant_table].
    apply Forall_app. split; [exact Hdb|].
    constructor; [|constructor]. split; assumption.
  - unfold Db.update_bewertung.
    cbn [fst Db.with_bewertungen Db.bewertung_table Db.person_table
         Db.restaurant_table].
    apply Forall_map. eapply Forall_impl; [|exact Hdb].
    intros b Hb. destruct (Db.row_match _ _ b); exact Hb.
  - unfold Db.delete_bewertung.
    cbn [fst Db.with_bewertungen Db.bewertung_table Db.person_table
         Db.restaurant_table].
    apply Forall_forall. intros b Hb. apply filter_In in Hb.
    rewrite Forall_forall in Hdb. apply Hdb. apply Hb.
  - unfold Db.create_restaurant.
    destruct (Db.get_restaurant_by_id db (RestaurantBase.place_id rest));
      [exact Hdb|].
    cbn [fst Db.with_restaurants Db.bewertung_table Db.person_table
         Db.restaurant_table].
    eapply Forall_impl; [|exact Hdb].
    intros b [Hp Hr]. split; [exact Hp|]. apply in_or_app. now left.
Qed.

Lemma referential_integrity_preserved_witness :
  referential_integrity
    (fst (Db.create_bewertung Scenarios.db_rated (Examples.assessment_A "ok" 3)))
  /\ referential_integrity
       (fst (Db.update_bewertung Scenarios.db_rated
               (Examples.assessment_A "ok" 3) (Examples.assessment_A "good" 5)))
  /\ referential_integrity
       (fst (Db.delete_bewertung Scenarios.db_rated Examples.alice
               (RestaurantBase.mk "A")))
  /\ referential_integrity
       (fst (Db.create_restaurant Scenarios.db_rated (RestaurantBase.mk "A"))).
Proof.
  apply (referential_integrity_preserved Scenarios.db_rated).
  unfold referential_integrity.
  repeat (apply Forall_cons || apply Forall_nil); split; simpl; auto 6.
Defined.



(** ** The rating store: lookups *)

(** On rows that refer to known persons and restaurants, the joined query
    selects by user and restaurant alone. *)
Lemma joined_match_known (db : Db.Session) (user : UserBase.t)
  (rest : RestaurantBase.t) (b : Db.Bewertung.t) :
  In (Db.Bewertung.person_email b) (Db.person_table db) ->
  In (Db.Bewertung.place_id b) (Db.restaurant_table db) ->
  Db.joined_match db user rest b
  = Db.row_match (UserBase.email user) (RestaurantBase.place_id rest) b.
Proof.
  intros Hp Hr. unfold Db.joined_match, Db.row_match.
  rewrite (proj2 (existsb_eqb_In _ _) Hp), (proj2 (existsb_eqb_In _ _) Hr).
  reflexivity.
Qed.

Lemma find_joined_known (db : Db.Session) (user : UserBase.t)
  (rest : RestaurantBase.t) (rows : list Db.Bewertung.t) :
  Forall (fun b => In (Db.Bewertung.person_email b) (Db.person_table db)
                   /\ In (Db.Bewertung.place_id b) (Db.restaurant_table db)) rows ->
  find (Db.joined_match db user rest) rows
  = find (Db.row_match (UserBase.email user) (RestaurantBase.place_id rest)) rows.
Proof.
  induction 1 as [|b t [Hp Hr] _ IH]; [reflexivity|].
  cbn [find]. rewrite (joined_match_known db user rest b Hp Hr), IH. reflexivity.
Qed.

Lemma find_none_iff_count {A : Type} (f : A -> bool) (l : list A) :
  find f l = None <-> List.length (filter f l) = 0%nat.
Proof.
  induction l as [|x t IH]; [split; reflexivity|].
  cbn [find filter]. destruct (f x); cbn [List.length]; [split; discriminate|].
  exact IH.
Qed.

(** X19.  On a store with referential integrity,
    [get_bewertung_from_user_to_rest] finds nothing exactly when the pair
    has no rating row, and what it finds is a row of the store with the
    user's mail address and the restaurant's place identifier. *)
Theorem lookup_finds_the_pair (db : Db.Session) (user : UserBase.t)
  (rest : RestaurantBase.t) :
  referential_integrity db ->
  (Db.get_bewertung_from_user_to_rest db user rest = None
   <-> Db.count_ratings db (UserBase.email user) (RestaurantBase.place_id rest)
       = 0%nat)
  /\ (forall b,
        Db.get_bewertung_from_user_to_rest db user rest = Some b ->
        In b (Db.bewertung_table db)
        /\ Db.Bewertung.person_email b = UserBase.email user
        /\ Db.Bewertung.place_id b = RestaurantBase.place_id rest).
Proof.
  intros Hdb. unfold Db.get_bewertung_from_user_to_rest, Db.count_ratings.
  rewrite (find_joined_known db user rest _ Hdb). split.
  - apply find_none_iff_count.
  - intros b Hb. apply find_some in Hb. destruct Hb as [Hin Hb].
    apply row_match_iff in Hb. split; [exact Hin|exact Hb].
Qed.

Lemma lookup_finds_the_pair_witness :
  (Db.get_bewertung_from_user_to_rest Scenarios.db_rated Scenarios.bob
     (RestaurantBase.mk "B") = None
   <-> Db.count_ratings Scenarios.db_rated "bob@example.org" "B" = 0%nat)
  /\ (forall b,
        Db.get_bewertung_from_user_to_rest Scenarios.db_rated Scenarios.bob
          (RestaurantBase.mk "B") = Some b ->
        In b (Db.bewertung_table Scenarios.db_rated)
        /\ Db.Bewertung.person_email b = "bob@example.org"
        /\ Db.Bewertung.place_id b = "B").
Proof.
  apply (lookup_finds_the_pair Scenarios.db_rated Scenarios.bob
           (RestaurantBase.mk "B")).
  unfold referential_integrity.
  repeat (apply Forall_cons || apply Forall_nil); split; simpl; auto 6.
Defined.

(** X20.  [get_assessments_from_user] raises [TypeError] for a user the
    store does not know (it iterates over the [None] that
    [get_all_user_bewertungen] returns).  For a known user
    [get_all_user_bewertungen] returns exactly the rows of the rating table
    with that user's mail address, in the table's order, and
    [get_assessments_from_user] returns one entry per such row, in the same
    order, whose comment, rating and timestamp are those of the row. *)
Theorem get_assessments_from_user_rows (db : Db.Session) (user : UserBase.t) :
  (~ In (UserBase.email user) (Db.person_table db) ->
   get_all_user_bewertungen db user = None
   /\ get_assessments_from_user db user = inl TypeError)
  /\ (In (UserBase.email user) (Db.person_table db) ->
      get_all_user_bewertungen db user
      = Some (filter (fun b => String.eqb (Db.Bewertung.person_email b)
                                          (UserBase.email user))
                     (Db.bewertung_table db))
      /\ exists assessments,
           get_assessments_from_user db user = inr assessments
           /\ Forall2
                (fun b r =>
                   RestBewertungReturn.comment r = Db.Bewertung.kommentar b
                   /\ RestBewertungReturn.rating r = Db.Bewertung.rating b
                   /\ RestBewertungReturn.timestamp r = Db.Bewertung.zeitstempel b)
                (filter (fun b => String.eqb (Db.Bewertung.person_email b)
                                             (UserBase.email user))
                        (Db.bewertung_table db))
                assessments).
Proof.
  unfold get_assessments_from_user, get_all_user_bewertungen, Db.get_user_by_mail.
  split; intros Hu.
  - rewrite (find_eqb_absent _ _ Hu). split; reflexivity.
  - rewrite (find_eqb_present _ _ Hu). split; [reflexivity|].
    eexists. split; [reflexivity|].
    induction (filter _ (Db.bewertung_table db)) as [|b rows IH];
      cbn [map]; constructor.
    + repeat split.
    + exact IH.
Qed.

Lemma get_assessments_from_user_rows_witness :
  (get_all_user_bewertungen Scenarios.db_rated Scenarios.carol = None
   /\ get_assessments_from_user Scenarios.db_rated Scenarios.carol = inl TypeError)
  /\ (get_all_user_bewertungen Scenarios.db_rated Examples.alice
      = Some (filter (fun b => String.eqb (Db.Bewertung.person_email b)
                                          "alice@example.org")
                     (Db.bewertung_table Scenarios.db_rated))
      /\ exists assessments,
           get_assessments_from_user Scenarios.db_rated Examples.alice
           = inr assessments
           /\ Forall2
                (fun b r =>
                   RestBewertungReturn.comment r = Db.Bewertung.kommentar b
                   /\ RestBewertungReturn.rating r = Db.Bewertung.rating b
                   /\ RestBewertungReturn.timestamp r = Db.Bewertung.zeitstempel b)
                (filter (fun b => String.eqb (Db.Bewertung.person_email b)
                                             "alice@example.org")
                        (Db.bewertung_table Scenarios.db_rated))
                assessments).
Proof.
  split.
  - apply (get_assessments_from_user_rows Scenarios.db_rated Scenarios.carol).
    simpl. intros [H|[H|H]]; [discriminate|discriminate|exact H].
  - apply (get_assessments_from_user_rows Scenarios.db_rated Examples.alice).
    simpl. left. reflexivity.
Defined.

(** X21.  Update and lookup: on a store with referential integrity, when
    the pair of the assessment has a rating row, [update_assessment] (old
    and new assessment naming the same user and restaurant) returns, with
    the new comment and the new rating. *)
Theorem update_assessment_found (db : Db.Session)
  (old_assessment new_assessment : RestBewertungCreate.t) :
  referential_integrity db ->
  RestBewertungCreate.person new_assessment
  = RestBewertungCreate.person old_assessment ->
  RestBewertungCreate.restaurant new_assessment
  = RestBewertungCreate.restaurant old_assessment ->
  (1 <= Db.count_ratings db
          (UserBase.email (RestBewertungCreate.person old_assessment))
          (RestaurantBase.place_id (RestBewertungCreate.restaurant old_assessment)))%nat ->
  exists r,
    snd (update_assessment db old_assessment new_assessment) = inr r
    /\ RestBewertungReturn.comment r = RestBewertungCreate.comment new_assessment
    /\ RestBewertungReturn.rating r = RestBewertungCreate.rating new_assessment.
Proof.
  intros Hdb Hperson Hrest Hcount.
  unfold update_assessment, Db.update_bewertung,
    Db.get_bewertung_from_user_to_rest, Db.count_ratings in *.
  rewrite Hperson, Hrest.
  set (email := UserBase.email (RestBewertungCreate.person old_assessment)) in *.
  set (place := RestaurantBase.place_id
                  (RestBewertungCreate.restaurant old_assessment)) in *.
  cbn [Db.with_bewertungen Db.bewertung_table].
  assert (Hfind :
    forall rows,
      Forall (fun b => In (Db.Bewertung.person_email b) (Db.person_table db)
                       /\ In (Db.Bewertung.place_id b) (Db.restaurant_table db))
             rows ->
      find (Db.joined_match
              (Db.with_bewertungen db
                 (map (fun b => if Db.row_match email place b
                                then Db.update_row new_assessment b else b)
                      (Db.bewertung_table db)))
              (RestBewertungCreate.person old_assessment)
              (RestBewertungCreate.restaurant old_assessment))
           (map (fun b => if Db.row_match email place b
                          then Db.update_row new_assessment b else b) rows)
      = option_map (Db.update_row new_assessment)
                   (find (Db.row_match email place) rows)).
  { induction 1 as [|b t [Hp Hr] _ IH]; [reflexivity|].
    cbn [map find]. rewrite IH.
    rewrite joined_match_known.
    - fold email place. rewrite updated_row_same_pair.
      destruct (Db.row_match email place b); reflexivity.
    - destruct (Db.row_match email place b); exact Hp.
    - destruct (Db.row_match email place b); exact Hr. }
  rewrite (Hfind _ Hdb).
  destruct (find (Db.row_match email place) (Db.bewertung_table db)) as [b|] eqn:Hb.
  - cbn [option_map snd]. eexists. split; [reflexivity|]. split; reflexivity.
  - apply find_none_iff_count in Hb. lia.
Qed.

Lemma update_assessment_found_witness :
  exists r,
    snd (update_assessment Scenarios.db_rated (Examples.assessment_A "fine" 4)
           (Examples.assessment_A "great" 5)) = inr r
    /\ RestBewertungReturn.comment r = "great"
    /\ RestBewertungReturn.rating r = 5.
Proof.
  apply (update_assessment_found Scenarios.db_rated
           (Examples.assessment_A "fine" 4) (Examples.assessment_A "great" 5)).
  - unfold referential_integrity.
    repeat (apply Forall_cons || apply Forall_nil); split; simpl; auto 6.
  - reflexivity.
  - reflexivity.
  - unfold Db.count_ratings. simpl. lia.
Defined.

(** X22.  Create and enrichment: for a known user and a candidate whose
    restaurant the store knows and the user has not rated, [add_assessment]
    returns the assessment with the rating given, and the enrichment of
    that candidate on the store it leaves returns one restaurant whose
    [own_rating] is the rating just given and whose other fields are the
    candidate's. *)
Theorem enrichment_sees_new_rating (db : Db.Session) (user : UserBase.t)
  (candidate : Restaurant) (comment : string) (own : Z) :
  In (UserBase.email user) (Db.person_table db) ->
  In (place_id candidate) (Db.restaurant_table db) ->
  Db.count_ratings db (UserBase.email user) (place_id candidate) = 0%nat ->
  exists created enriched,
    snd (add_assessment db
           (RestBewertungCreate.mk user (as_base candidate) comment own))
    = inr created
    /\ RestBewertungReturn.rating created = own
    /\ fill_user_rating
         (fst (add_assessment db
                 (RestBewertungCreate.mk user (as_base candidate) comment own)))
         [candidate] user
       = [enriched]
    /\ own_rating enriched = Some own
    /\ place_id enriched = place_id candidate
    /\ name enriched = name candidate
    /\ geometry enriched = geometry candidate
    /\ rating enriched = rating candidate
    /\ homepage enriched = homepage candidate
    /\ maps_url enriched = maps_url candidate
    /\ phone_number enriched = phone_number candidate.
Proof.
  intros Hu Hr Hcount.
  pose proof (lookup_after_create db
                (RestBewertungCreate.mk user (as_base candidate) comment own)
                Hu Hr Hcount) as Hlookup.
  pose proof (create_bewertung_ok db
                (RestBewertungCreate.mk user (as_base candidate) comment own)
                Hu Hr Hcount) as Hcreate.
  cbn [RestBewertungCreate.person RestBewertungCreate.restaurant
       RestBewertungCreate.comment RestBewertungCreate.rating] in Hlookup, Hcreate.
  unfold add_assessment in *. rewrite Hcreate in *. cbn [fst snd] in *.
  unfold fill_user_rating. cbn [map]. rewrite Hlookup.
  eexists. eexists. split; [reflexivity|].
  split; [reflexivity|]. split; [reflexivity|].
  repeat split.
Qed.

Lemma enrichment_sees_new_rating_witness :
  exists created enriched,
    snd (add_assessment Examples.db_known
           (RestBewertungCreate.mk Examples.alice (as_base Examples.cand_A)
              "good" 4))
    = inr created
    /\ RestBewertungReturn.rating created = 4
    /\ fill_user_rating
         (fst (add_assessment Examples.db_known
                 (RestBewertungCreate.mk Examples.alice (as_base Examples.cand_A)
                    "good" 4)))
         [Examples.cand_A] Examples.alice
       = [enriched]
    /\ own_rating enriched = Some 4
    /\ place_id enriched = place_id Examples.cand_A
    /\ name enriched = name Examples.cand_A
    /\ geometry enriched = geometry Examples.cand_A
    /\ rating enriched = rating Examples.cand_A
    /\ homepage enriched = homepage Examples.cand_A
    /\ maps_url enriched = maps_url Examples.cand_A
    /\ phone_number enriched = phone_number Examples.cand_A.
Proof.
  apply (enrichment_sees_new_rating Examples.db_known Examples.alice
           Examples.cand_A "good" 4).
  - simpl. left. reflexivity.
  - simpl. left. reflexivity.
  - reflexivity.
Defined.

(** ** The filter never drops a candidate that meets the threshold *)

Lemma remove_keeps_others (P : Restaurant -> bool) (x : Restaurant)
  (l l' : list Restaurant) :
  PyList.remove x l = inr l' -> P x = false -> filter P l' = filter P l.
Proof.
  revert l'. induction l as [|y t IH]; intros l' Hrm Hx; [discriminate|].
  cbn [PyList.remove] in Hrm.
  destruct (Restaurant_eq_dec y x) as [->|Hne].
  - inversion Hrm; subst. cbn [filter]. rewrite Hx. reflexivity.
  - destruct (PyList.remove x t) as [e|t'] eqn:Ht; [discriminate|].
    inversion Hrm; subst. cbn [filter]. rewrite (IH t' eq_refl Hx). reflexivity.
Qed.

Lemma filter_rating_loop_keeps_good (min_rating : Z) (fuel : nat) :
  forall (i : nat) (rests out : list Restaurant) (e : option exn),
    filter_rating_loop fuel i rests min_rating = Some (out, e) ->
    Spec.filter_stage out min_rating = Spec.filter_stage rests min_rating.
Proof.
  induction fuel as [|fuel IH]; intros i rests out e H; [discriminate|].
  cbn [filter_rating_loop] in H.
  destruct (nth_error rests i) as [res|]; [|inversion H; reflexivity].
  destruct (py_lt (rating res) min_rating) as [e'|[|]] eqn:Hlt.
  - inversion H; reflexivity.
  - destruct (PyList.remove res rests) as [e'|rests'] eqn:Hrm;
      [inversion H; reflexivity|].
    rewrite (IH _ _ _ _ H). unfold Spec.filter_stage.
    apply (remove_keeps_others _ res); [exact Hrm|].
    unfold py_lt in Hlt. destruct (rating res) as [v|]; [|discriminate].
    inversion Hlt as [Hv]. cbn [Spec.or_zero].
    apply Z.ltb_lt in Hv. apply Z.leb_gt. exact Hv.
  - apply (IH _ _ _ _ H).
Qed.

(** X23.  Whatever [filter_rating] leaves in the list, and however it
    ends, it has dropped no candidate whose external rating (0 when absent)
    is at least the threshold: these candidates are all still there, in
    their order. *)
Theorem filter_rating_keeps_good (rests out : list Restaurant)
  (min_rating : Z) (e : option exn) :
  filter_rating rests min_rating = Some (out, e) ->
  Spec.filter_stage out min_rating = Spec.filter_stage rests min_rating.
Proof. apply filter_rating_loop_keeps_good. Qed.

Lemma filter_rating_keeps_good_witness :
  Spec.filter_stage [Examples.cand_A; Examples.cand_D; Examples.cand_C] 4
  = Spec.filter_stage
      [Examples.cand_A; Examples.cand_B; Examples.cand_D; Examples.cand_C] 4.
Proof.
  apply (filter_rating_keeps_good
           [Examples.cand_A; Examples.cand_B; Examples.cand_D; Examples.cand_C]
           [Examples.cand_A; Examples.cand_D; Examples.cand_C] 4 None).
  vm_compute. reflexivity.
Defined.

(** ** The draw follows the running sums of the weights *)

Lemma Zsum_firstn_mono (weights : list Z) :
  Forall (fun w => 0 <= w) weights ->
  forall i j, (i <= j)%nat ->
    Spec.Zsum (firstn i weights) <= Spec.Zsum (firstn j weights).
Proof.
  induction 1 as [|w t Hw _ IH]; intros i j Hij.
  - rewrite !firstn_nil. lia.
  - destruct i as [|i]; destruct j as [|j]; try lia.
    + cbn [firstn Spec.Zsum fold_right].
      fold (Spec.Zsum (firstn j t)).
      specialize (IH 0%nat j (Nat.le_0_l j)). cbn [firstn Spec.Zsum fold_right] in IH.
      lia.
    + cbn [firstn Spec.Zsum fold_right].
      fold (Spec.Zsum (firstn i t)). fold (Spec.Zsum (firstn j t)).
      specialize (IH i j). lia.
Qed.

(** The index the draw returns: the running sum before it is at most
    [u * total], the running sum with it is above. *)
Lemma choices_interval {A : Type} (population : list A) (weights : list Z)
  (u : Q) :
  List.length weights = List.length population ->
  0 < Spec.Zsum weights -> (0 <= u)%Q -> (u < 1)%Q ->
  exists i chosen w,
    PyRandom.choices population weights u = Some (inr chosen)
    /\ nth_error population i = Some chosen
    /\ nth_error weights i = Some w
    /\ (inject_Z (Spec.Zsum (firstn i weights))
        <= u * inject_Z (Spec.Zsum weights))%Q
    /\ (u * inject_Z (Spec.Zsum weights)
        < inject_Z (Spec.Zsum (firstn i weights) + w))%Q.
Proof.
  intros Hlen Htotal Hu0 Hu1.
  assert (Hn : (0 < List.length population)%nat).
  { rewrite <- Hlen. destruct weights; [vm_compute in Htotal; discriminate|].
    simpl. lia. }
  set (total := Spec.Zsum weights) in *.
  set (x := (u * inject_Z total)%Q).
  assert (Hx0 : (0 <= x)%Q).
  { apply Qmult_le_0_compat; [exact Hu0|].
    change 0%Q with (inject_Z 0). rewrite <- Zle_Qle. lia. }
  assert (Hx1 : (x < inject_Z total)%Q).
  { unfold x. rewrite <- (Qmult_1_l (inject_Z total)) at 2.
    apply Qmult_lt_compat_r; [|exact Hu1].
    change 0%Q with (inject_Z 0). rewrite <- Zlt_Qlt. exact Htotal. }
  destruct (bisect_loop_result (PyRandom.accumulate weights) x
              (S (List.length population - 1 - 0))
              0%nat (List.length population - 1)%nat)
    as (i & Hi & Hrange & Hleft & Hright).
  { lia. } { lia. }
  { unfold PyRandom.accumulate. rewrite accumulate_from_length. lia. }
  destruct (nth_error population i) as [chosen|] eqn:Hpop.
  2:{ apply nth_error_None in Hpop. lia. }
  destruct (nth_error weights i) as [w|] eqn:Hw.
  2:{ apply nth_error_None in Hw. lia. }
  exists i, chosen, w.
  split; [|split; [exact Hpop|split; [exact Hw|split]]].
  - unfold PyRandom.choices, PyRandom.accumulate.
    rewrite accumulate_from_length, Hlen, Nat.eqb_refl. cbn [negb].
    fold (PyRandom.accumulate weights).
    rewrite last_item_accumulate.
    2:{ intros Hnil. rewrite Hnil in Hw. destruct i; discriminate. }
    fold total. destruct (total <=? 0) eqn:Hle; [apply Z.leb_le in Hle; lia|].
    fold x. unfold PyRandom.bisect. rewrite Hi, Hpop. reflexivity.
  - destruct Hleft as [Hlo|(Hlo & v & Hv & Hvx)].
    + subst i. cbn [firstn Spec.Zsum fold_right]. exact Hx0.
    + destruct i as [|j]; [lia|].
      cbn [Nat.sub] in Hv. rewrite Nat.sub_0_r in Hv.
      destruct (nth_error weights j) as [w'|] eqn:Hw'.
      2:{ apply nth_error_None in Hw'. lia. }
      pose proof (accumulate_from_nth weights 0 j w' Hw') as Haj.
      fold (PyRandom.accumulate weights) in Haj.
      rewrite Haj in Hv. inversion Hv; subst.
      rewrite (Zsum_firstn_S weights j w' Hw').
      replace (Spec.Zsum (firstn j weights) + w')
        with (0 + Spec.Zsum (firstn j weights) + w') by lia.
      exact Hvx.
  - pose proof (accumulate_from_nth weights 0 i w Hw) as Hai.
    fold (PyRandom.accumulate weights) in Hai.
    destruct Hright as [Hhi|(v & Hv & Hxv)].
    + assert (Hall : firstn (S i) weights = weights).
      { apply firstn_all2. lia. }
      pose proof (Zsum_firstn_S weights i w Hw) as Hsum.
      rewrite Hall in Hsum. fold total in Hsum.
      rewrite <- Hsum. exact Hx1.
    + rewrite Hai in Hv. inversion Hv; subst.
      replace (Spec.Zsum (firstn i weights) + w)
        with (0 + Spec.Zsum (firstn i weights) + w) by lia.
      exact Hxv.
Qed.

(** X24.  Which candidate the draw returns.  With no negative weight, and
    [x] the product [random() * total] as the float multiplication computed
    it ([u * total] in the model), [select_restaurant] returns the
    candidate at position [i] whenever [x] lies from the sum of the weights
    before [i] (included) to that sum plus the candidate's own weight
    (excluded).  The candidates thus divide [[0, total)] into consecutive
    intervals, each as long as its candidate's weight, and a candidate of
    weight 0 is never returned this way. *)
Theorem draw_by_running_sums (rests : list Restaurant) (u : Q) (i : nat)
  (res : Restaurant) :
  (0 <= u)%Q -> (u < 1)%Q ->
  Forall (fun r => 0 <= Spec.weight r) rests ->
  nth_error rests i = Some res ->
  (inject_Z (Spec.total_weight (firstn i rests))
   <= u * inject_Z (Spec.total_weight rests))%Q ->
  (u * inject_Z (Spec.total_weight rests)
   < inject_Z (Spec.total_weight (firstn i rests) + Spec.weight res))%Q ->
  snd (select_restaurant rests u) = Some (inr (zero_filled res)).
Proof.
  intros Hu0 Hu1 Hnonneg Hres Hlow Hhigh.
  unfold Spec.total_weight in *. rewrite <- firstn_map in Hlow, Hhigh.
  set (weights := map Spec.weight rests) in *.
  assert (Hws : Forall (fun w => 0 <= w) weights).
  { unfold weights. apply Forall_map. exact Hnonneg. }
  assert (Hw : nth_error weights i = Some (Spec.weight res)).
  { unfold weights. rewrite nth_error_map, Hres. reflexivity. }
  assert (Hnext : Spec.Zsum (firstn (S i) weights)
                  = Spec.Zsum (firstn i weights) + Spec.weight res)
    by (apply Zsum_firstn_S; exact Hw).
  assert (Htotal : 0 < Spec.Zsum weights).
  { pose proof (Zsum_firstn_mono weights Hws 0 i (Nat.le_0_l i)) as H0.
    pose proof (Zsum_firstn_mono weights Hws (S i) (List.length weights)) as H1.
    rewrite firstn_all in H1. cbn [firstn Spec.Zsum fold_right] in H0.
    assert (Hi : (S i <= List.length weights)%nat).
    { apply Nat.le_succ_l. apply nth_error_Some. congruence. }
    specialize (H1 Hi).
    pose proof (Qle_lt_trans _ _ _ Hlow Hhigh) as Hc0.
    rewrite <- Zlt_Qlt in Hc0. lia. }
  destruct (choices_interval (map zero_filled rests) weights u)
    as (i0 & chosen & w0 & Hc & Hp & Hw0 & Hlow0 & Hhigh0).
  { unfold weights. now rewrite !length_map. }
  { exact Htotal. } { exact Hu0. } { exact Hu1. }
  assert (Heq : i0 = i).
  { pose proof (Zsum_firstn_S weights i0 w0 Hw0) as Hnext0.
    destruct (Nat.lt_trichotomy i0 i) as [Hlt|[Heq|Hgt]]; [|exact Heq|].
    - exfalso.
      pose proof (Zsum_firstn_mono weights Hws (S i0) i Hlt) as Hm.
      pose proof (Qle_lt_trans _ _ _ Hlow Hhigh0) as Hc0.
      rewrite <- Zlt_Qlt in Hc0. lia.
    - exfalso.
      pose proof (Zsum_firstn_mono weights Hws (S i) i0 Hgt) as Hm.
      pose proof (Qle_lt_trans _ _ _ Hlow0 Hhigh) as Hc0.
      rewrite <- Zlt_Qlt in Hc0. lia. }
  subst i0. rewrite select_restaurant_eq. cbn [snd]. fold weights.
  rewrite Hc. rewrite nth_error_map, Hres in Hp. cbn [option_map] in Hp.
  congruence.
Qed.

Lemma draw_by_running_sums_witness :
  snd (select_restaurant [Examples.cand_N; Examples.cand_A; Examples.cand_C]
         (2 # 3))
  = Some (inr (zero_filled Examples.cand_C)).
Proof.
  apply (draw_by_running_sums
           [Examples.cand_N; Examples.cand_A; Examples.cand_C] (2 # 3) 2
           Examples.cand_C).
  - unfold Qle; simpl; lia.
  - unfold Qlt; simpl; lia.
  - repeat constructor; vm_compute; discriminate.
  - reflexivity.
  - vm_compute. discriminate.
  - vm_compute. reflexivity.
Defined.

(** ** What the full search returns *)

(** A draw that returns a restaurant returns a candidate of the list, with
    absent ratings set to 0, whose weight is positive. *)
Lemma drawn_is_member (rests : list Restaurant) (u : Q) (drawn : Restaurant) :
  (0 <= u)%Q -> (u < 1)%Q ->
  snd (select_restaurant rests u) = Some (inr drawn) ->
  exists res, In res rests /\ drawn = zero_filled res /\ 0 < Spec.weight res.
Proof.
  intros Hu0 Hu1 Hdrawn.
  destruct rests as [|first t]; [discriminate|].
  destruct (Z_le_gt_dec (Spec.total_weight (first :: t)) 0) as [Hle|Hgt].
  - rewrite (draw_refused (first :: t) u) in Hdrawn;
      [discriminate|discriminate|exact Hle].
  - destruct (draw_positive (first :: t) u Hu0 Hu1) as (res & Hin & Hpos & H);
      [lia|].
    rewrite H in Hdrawn. inversion Hdrawn; subst.
    exists res. split; [exact Hin|]. split; [reflexivity|exact Hpos].
Qed.

(** The bookkeeping returns a restaurant only when the store does not know
    it (for a known one [create_restaurant] raises), and then it returns
    its argument and leaves the store as it was. *)
Lemma bookkeeping_returns (default_comment : string) (default_rating : Z)
  (db db' : Db.Session) (user : UserBase.t) (restaurant returned : Restaurant) :
  bookkeeping default_comment default_rating db user restaurant
  = (db', inr returned) ->
  returned = restaurant /\ db' = db
  /\ ~ In (place_id restaurant) (Db.restaurant_table db).
Proof.
  intros Hbook.
  destruct (in_dec string_dec (place_id restaurant) (Db.restaurant_table db))
    as [Hknown|Hnew].
  - rewrite (bookkeeping_known default_comment default_rating db user restaurant
               Hknown) in Hbook.
    discriminate.
  - unfold bookkeeping, Db.get_restaurant_by_id in Hbook.
    rewrite (find_eqb_absent _ _ Hnew) in Hbook.
    inversion Hbook. subst. split; [reflexivity|]. split; [reflexivity|exact Hnew].
Qed.

(** The joined query finds no rating of a restaurant the store does not
    know. *)
Lemma lookup_unknown_restaurant (db : Db.Session) (user : UserBase.t)
  (rest : RestaurantBase.t) :
  ~ In (RestaurantBase.place_id rest) (Db.restaurant_table db) ->
  Db.get_bewertung_from_user_to_rest db user rest = None.
Proof.
  intros Hnew. unfold Db.get_bewertung_from_user_to_rest.
  destruct (find (Db.joined_match db user rest) (Db.bewertung_table db))
    as [b|] eqn:Hfind; [|reflexivity].
  apply find_some in Hfind. destruct Hfind as [_ Hb].
  unfold Db.joined_match in Hb.
  apply andb_prop in Hb. destruct Hb as [Hb Hplace].
  apply andb_prop in Hb. destruct Hb as [Hb _].
  apply andb_prop in Hb. destruct Hb as [_ Hknown].
  apply String.eqb_eq in Hplace. apply existsb_eqb_In in Hknown.
  rewrite Hplace in Hknown. contradiction.
Qed.

(** X25.  A restaurant that [search_for_restaurant] returns is one of the
    candidates the search call delivered: same place, name, position and
    detail fields, its weight positive.  It is a restaurant the store does
    not know (for a known one the bookkeeping raises), so the enrichment
    attached no rating of the user to it: both ratings are the candidate's,
    with 0 where the candidate had none.  The store is left as it was. *)
Theorem search_returns_a_search_result
  (gapi : FilterRest -> outcome (list Restaurant))
  (default_comment : string) (default_rating : Z)
  (db db' : Db.Session) (user : UserBase.t) (user_f : FilterRest) (u : Q)
  (google_rests : list Restaurant) (restaurant : Restaurant) :
  (0 <= u)%Q -> (u < 1)%Q ->
  gapi user_f = inr google_rests ->
  search_for_restaurant gapi default_comment default_rating db user user_f u
  = Some (db', inr restaurant) ->
  exists found,
    In found google_rests
    /\ place_id restaurant = place_id found
    /\ name restaurant = name found
    /\ geometry restaurant = geometry found
    /\ homepage restaurant = homepage found
    /\ maps_url restaurant = maps_url found
    /\ phone_number restaurant = phone_number found
    /\ rating restaurant = Some (Spec.or_zero (rating found))
    /\ own_rating restaurant = Some (Spec.or_zero (own_rating found))
    /\ 0 < Spec.weight restaurant
    /\ ~ In (place_id restaurant) (Db.restaurant_table db)
    /\ Db.get_bewertung_from_user_to_rest db user (as_base found) = None
    /\ db' = db.
Proof.
  intros Hu0 Hu1 Hsearch Hresult.
  unfold search_for_restaurant, apply_filter in Hresult. rewrite Hsearch in Hresult.
  destruct (filter_rating_total google_rests (filter_min_rating user_f))
    as (out & e & Hfilter & Hincl & _).
  rewrite Hfilter in Hresult. destruct e as [e|]; [discriminate|].
  destruct (select_restaurant (fill_user_rating db out user) u)
    as [left [[e|drawn]|]] eqn:Hselect; try discriminate.
  inversion Hresult as [Hbook].
  apply bookkeeping_returns in Hbook. destruct Hbook as (Hret & Hdb & Hnew).
  subst drawn.
  destruct (drawn_is_member (fill_user_rating db out user) u restaurant Hu0 Hu1)
    as (res & Hin & Hzero & Hpos).
  { rewrite Hselect. reflexivity. }
  unfold fill_user_rating in Hin. apply in_map_iff in Hin.
  destruct Hin as (found & Hres & Hfound).
  exists found. split; [apply Hincl; exact Hfound|].
  assert (Hplace : place_id restaurant = place_id found).
  { subst restaurant res.
    destruct (Db.get_bewertung_from_user_to_rest db user (as_base found));
      reflexivity. }
  assert (Hnone : Db.get_bewertung_from_user_to_rest db user (as_base found) = None).
  { apply lookup_unknown_restaurant. cbn [as_base RestaurantBase.place_id].
    rewrite <- Hplace. exact Hnew. }
  rewrite Hnone in Hres. subst restaurant res.
  repeat split; try reflexivity; try assumption.
Qed.

Lemma search_returns_a_search_result_witness :
  exists found,
    In found [Examples.cand_A; Examples.cand_B; Examples.cand_C]
    /\ place_id (zero_filled Examples.cand_C) = place_id found
    /\ name (zero_filled Examples.cand_C) = name found
    /\ geometry (zero_filled Examples.cand_C) = geometry found
    /\ homepage (zero_filled Examples.cand_C) = homepage found
    /\ maps_url (zero_filled Examples.cand_C) = maps_url found
    /\ phone_number (zero_filled Examples.cand_C) = phone_number found
    /\ rating (zero_filled Examples.cand_C) = Some (Spec.or_zero (rating found))
    /\ own_rating (zero_filled Examples.cand_C)
       = Some (Spec.or_zero (own_rating found))
    /\ 0 < Spec.weight (zero_filled Examples.cand_C)
    /\ ~ In (place_id (zero_filled Examples.cand_C))
            (Db.restaurant_table Scenarios.db_rated)
    /\ Db.get_bewertung_from_user_to_rest Scenarios.db_rated Examples.alice
         (as_base found) = None
    /\ Scenarios.db_rated = Scenarios.db_rated.
Proof.
  apply (search_returns_a_search_result Examples.gapi_ABC "" 0
           Scenarios.db_rated Scenarios.db_rated Examples.alice
           (Examples.a_filter 4) (9 # 10)
           [Examples.cand_A; Examples.cand_B; Examples.cand_C]
           (zero_filled Examples.cand_C)).
  - unfold Qle; simpl; lia.
  - unfold Qlt; simpl; lia.
  - reflexivity.
  - vm_compute. reflexivity.
Defined.

(** ** When the filter is exact *)

Lemma remove_after_kept (min_rating : Z) (kept t : list Restaurant)
  (x : Restaurant) :
  Forall (fun r => below min_rating r = false) kept ->
  below min_rating x = true ->
  PyList.remove x (kept ++ x :: t) = inr (kept ++ t)%list.
Proof.
  intros Hkept Hx. induction Hkept as [|k kept' Hk _ IH].
  - cbn [app PyList.remove]. destruct (Restaurant_eq_dec x x); [reflexivity|].
    congruence.
  - cbn [app PyList.remove].
    destruct (Restaurant_eq_dec k x) as [->|_]; [congruence|].
    rewrite IH. reflexivity.
Qed.

Lemma nth_error_after_kept (kept todo : list Restaurant) :
  nth_error (kept ++ todo) (List.length kept) = nth_error todo 0.
Proof.
  rewrite nth_error_app2 by lia. rewrite Nat.sub_diag. reflexivity.
Qed.

Lemma filter_rating_loop_exact (min_rating : Z) (fuel : nat) :
  forall kept todo : list Restaurant,
    (List.length todo < fuel)%nat ->
    Forall (fun r => below min_rating r = false) kept ->
    Forall (fun r => rating r <> None) todo ->
    no_neighbours_below min_rating todo ->
    filter_rating_loop fuel (List.length kept) (kept ++ todo) min_rating
    = Some ((kept ++ Spec.filter_stage todo min_rating)%list, None).
Proof.
  induction fuel as [|fuel IH]; intros kept todo Hfuel Hkept Hrated Hnn; [lia|].
  cbn [filter_rating_loop]. rewrite nth_error_after_kept.
  destruct todo as [|x t]; [reflexivity|].
  cbn [nth_error].
  inversion Hrated as [|? ? Hx Ht]; subst.
  destruct (rating x) as [v|] eqn:Hv; [|congruence].
  cbn [py_lt ret]. destruct Hnn as [Hnext Hnn].
  assert (Hstep : forall y l, ((kept ++ y :: nil) ++ l = kept ++ y :: l)%list)
    by (intros y l; rewrite <- app_assoc; reflexivity).
  assert (Hlen : forall y, List.length (kept ++ [y])%list = S (List.length kept))
    by (intros y; rewrite length_app; simpl; lia).
  destruct (v <? min_rating) eqn:Hlt.
  - assert (Hbelow : below min_rating x = true)
      by (unfold below; rewrite Hv; exact Hlt).
    rewrite (remove_after_kept min_rating kept t x Hkept Hbelow).
    unfold Spec.filter_stage. cbn [filter]. rewrite Hv. cbn [Spec.or_zero].
    replace (min_rating <=? v) with false
      by (symmetry; apply Z.leb_gt; apply Z.ltb_lt; exact Hlt).
    destruct t as [|y t'].
    + rewrite app_nil_r. destruct fuel as [|fuel]; [simpl in Hfuel; lia|].
      cbn [filter_rating_loop filter].
      replace (nth_error kept (S (List.length kept))) with (@None Restaurant)
        by (symmetry; apply nth_error_None; lia).
      rewrite app_nil_r. reflexivity.
    + specialize (Hnext Hbelow).
      inversion Ht as [|? ? Hy Ht']; subst.
      rewrite <- (Hstep y t'), <- (Hlen y).
      rewrite IH.
      * f_equal. f_equal. rewrite <- app_assoc. cbn [app filter].
        unfold below in Hnext. destruct (rating y) as [vy|]; [|congruence].
        cbn [Spec.or_zero].
        replace (min_rating <=? vy) with true
          by (symmetry; apply Z.leb_le; apply Z.ltb_ge; exact Hnext).
        reflexivity.
      * simpl in Hfuel. lia.
      * apply Forall_app. split; [exact Hkept|]. constructor; [exact Hnext|constructor].
      * exact Ht'.
      * destruct Hnn as [_ Hnn]. exact Hnn.
  - rewrite <- (Hstep x t), <- (Hlen x).
    rewrite IH.
    + f_equal. f_equal. rewrite <- app_assoc. cbn [app].
      unfold Spec.filter_stage. cbn [filter]. rewrite Hv. cbn [Spec.or_zero].
      replace (min_rating <=? v) with true
        by (symmetry; apply Z.leb_le; apply Z.ltb_ge; exact Hlt).
      reflexivity.
    + simpl in Hfuel. lia.
    + apply Forall_app. split; [exact Hkept|].
      constructor; [unfold below; rewrite Hv; exact Hlt|constructor].
    + exact Ht.
    + exact Hnn.
Qed.

(** X26.  When every candidate has an external rating and no candidate
    below the threshold is directly followed by another one,
    [filter_rating] is exact: it returns, without exception, the
    candidates whose rating is at least the threshold, in their order. *)
Theorem filter_rating_exact (rests : list Restaurant) (min_rating : Z) :
  Forall (fun r => rating r <> None) rests ->
  no_neighbours_below min_rating rests ->
  filter_rating rests min_rating
  = Some (Spec.filter_stage rests min_rating, None).
Proof.
  intros Hrated Hnn. unfold filter_rating.
  apply (filter_rating_loop_exact min_rating (S (List.length rests)) [] rests);
    [lia|constructor|exact Hrated|exact Hnn].
Qed.

Lemma filter_rating_exact_witness :
  filter_rating [Examples.cand_B; Examples.cand_A; Examples.cand_D; Examples.cand_C] 4
  = Some (Spec.filter_stage
            [Examples.cand_B; Examples.cand_A; Examples.cand_D; Examples.cand_C] 4,
          None).
Proof.
  apply (filter_rating_exact
           [Examples.cand_B; Examples.cand_A; Examples.cand_D; Examples.cand_C] 4).
  - repeat constructor; discriminate.
  - simpl. repeat split; intros; try reflexivity; discriminate.
Defined.

(** ** app/tools/security.py *)

Section SecurityFacts.

Import Ascii.

Lemma contains_at_iff (s : string) :
  Security.contains_at s = true
  <-> exists a b : string, s = (a ++ "@" ++ b)%string.
Proof.
  split.
  - induction s as [|c rest IH]; cbn [Security.contains_at]; [discriminate|].
    destruct (Ascii.eqb c "@"%char) eqn:Hc.
    + apply Ascii.eqb_eq in Hc. subst c. intros _.
      exists EmptyString, rest. reflexivity.
    + cbn [orb]. intros H. destruct (IH H) as (a & b & ->).
      exists (String c a), b. reflexivity.
  - intros (a & b & ->). induction a as [|c a IH].
    + reflexivity.
    + cbn [String.append Security.contains_at] in *. rewrite IH.
      apply orb_true_r.
Qed.

(** X27.  A form just created and loaded is valid exactly when the field
    [emailInput] was submitted and holds an [@]; the password is not looked
    at.  And a failed validation sticks to the form object: after
    [is_valid] returned false once, it returns false again whatever data
    is loaded into the same form, because the error list is never
    emptied. *)
Theorem login_form_validation :
  (forall form : string -> option string,
      snd (Security.is_valid (Security.load_data Security.new_form form)) = true
      <-> exists a b : string, form "emailInput" = Some (a ++ "@" ++ b)%string)
  /\ (forall (self : Security.LoginForm) (form : string -> option string),
        snd (Security.is_valid self) = false ->
        snd (Security.is_valid
               (Security.load_data (fst (Security.is_valid self)) form))
        = false).
Proof.
  split.
  - intros form. unfold Security.is_valid, Security.load_data, Security.new_form.
    cbn [Security.username Security.errors Security.password].
    destruct (form "emailInput") as [[|c rest]|] eqn:Hform;
      cbn [Security.email_missing].
    + cbn [snd Security.errors app]. split; [discriminate|].
      intros (a & b & H). destruct a; discriminate.
    + destruct (Security.contains_at (String c rest)) eqn:Hat; cbn [negb snd].
      * cbn [Security.errors]. split; [intros _|reflexivity].
        apply contains_at_iff in Hat. destruct Hat as (a & b & Hab).
        exists a, b. rewrite Hab. reflexivity.
      * cbn [Security.errors app]. split; [discriminate|].
        intros (a & b & H). inversion H as [Hs].
        assert (Security.contains_at (String c rest) = true)
          by (apply contains_at_iff; exists a, b; exact Hs).
        congruence.
    + cbn [snd Security.errors app]. split; [discriminate|].
      intros (a & b & H). discriminate.
  - intros self form Hfailed.
    assert (Herr : Security.errors (fst (Security.is_valid self)) <> []).
    { unfold Security.is_valid in *. cbn [fst snd] in *.
      destruct (Security.email_missing (Security.username self)).
      - cbn [Security.errors]. destruct (Security.errors self); discriminate.
      - destruct (Security.errors self); [discriminate|discriminate]. }
    unfold Security.is_valid at 1. unfold Security.load_data.
    cbn [Security.username Security.errors Security.password snd].
    destruct (Security.email_missing (form "emailInput"));
      cbn [Security.errors];
      destruct (Security.errors (fst (Security.is_valid self))) as [|e0 es];
      try congruence; reflexivity.
Qed.

Lemma lower_char_space (c : Ascii.ascii) :
  Ascii.eqb (Security.lower_char c) " "%char = Ascii.eqb c " "%char.
Proof. destruct c as [[] [] [] [] [] [] [] []]; reflexivity. Qed.

Lemma space_free_lower (s : string) :
  fst (Security.partition_space (Security.lower s)) = Security.lower s ->
  fst (Security.partition_space s) = s.
Proof.
  induction s as [|c rest IH]; [reflexivity|].
  cbn [Security.lower Security.partition_space]. rewrite lower_char_space.
  destruct (Ascii.eqb c " "%char); [discriminate|].
  destruct (Security.partition_space (Security.lower rest)) as [h t].
  destruct (Security.partition_space rest) as [h' t'].
  cbn [fst] in *. intros H. inversion H as [Hh]. rewrite (IH Hh). reflexivity.
Qed.

Lemma partition_space_app (s t : string) :
  fst (Security.partition_space s) = s ->
  Security.partition_space (s ++ String " "%char t) = (s, t).
Proof.
  induction s as [|c rest IH]; [reflexivity|].
  cbn [String.append Security.partition_space].
  destruct (Ascii.eqb c " "%char); [discriminate|].
  destruct (Security.partition_space rest) as [h' t'] eqn:Hrest.
  cbn [fst]. intros H. inversion H as [Hh]. subst h'.
  rewrite (IH eq_refl). reflexivity.
Qed.

Lemma partition_space_parts (s : string) :
  (s = fst (Security.partition_space s)
   /\ snd (Security.partition_space s) = EmptyString)
  \/ s = (fst (Security.partition_space s) ++ String " "%char
            (snd (Security.partition_space s)))%string.
Proof.
  induction s as [|c rest IH]; [left; split; reflexivity|].
  cbn [Security.partition_space].
  destruct (Ascii.eqb c " "%char) eqn:Hc.
  - apply Ascii.eqb_eq in Hc. subst c. right. reflexivity.
  - destruct (Security.partition_space rest) as [h t]. cbn [fst snd] in *.
    destruct IH as [[IH Ht]|IH]; [left; split; [|exact Ht]|right];
      cbn [String.append]; congruence.
Qed.

(** X28.  The cookie of the bearer scheme.  A cookie made of the word
    [bearer] in any mix of upper and lower case, one space and a token
    gives back that token.  A token is returned only for a cookie that
    starts with [bearer] in some case, alone or followed by a space.  With
    no cookie, or an empty one, the call raises [NotAuthorizedException],
    or returns [None] when [auto_error] is off. *)
Theorem oauth2_cookie :
  (forall (auto_error : bool) (scheme token : string),
      Security.lower scheme = "bearer" ->
      Security.oauth2_call auto_error (Some (scheme ++ " " ++ token)%string)
      = inr (Some token))
  /\ (forall (auto_error : bool) (authorization : option string) (token : string),
        Security.oauth2_call auto_error authorization = inr (Some token) ->
        exists scheme : string,
          Security.lower scheme = "bearer"
          /\ (authorization = Some scheme /\ token = EmptyString
              \/ authorization = Some (scheme ++ " " ++ token)%string))
  /\ (forall authorization : option string,
        authorization = None \/ authorization = Some EmptyString ->
        Security.oauth2_call true authorization
        = inl Security.NotAuthorizedException
        /\ Security.oauth2_call false authorization = inr None).
Proof.
  split; [|split].
  - intros auto_error scheme token Hscheme.
    assert (Hfree : fst (Security.partition_space scheme) = scheme).
    { apply space_free_lower. rewrite Hscheme. reflexivity. }
    unfold Security.oauth2_call, Security.get_authorization_scheme_param.
    assert (Hfalsy : Security.falsy (Some (scheme ++ " " ++ token)%string) = false).
    { destruct scheme; [discriminate|reflexivity]. }
    rewrite Hfalsy.
    change (scheme ++ " " ++ token)%string
      with (scheme ++ String " "%char token)%string.
    rewrite (partition_space_app scheme token Hfree), Hscheme. reflexivity.
  - intros auto_error authorization token.
    unfold Security.oauth2_call, Security.get_authorization_scheme_param.
    destruct authorization as [s|].
    2:{ cbn [Security.falsy orb]. destruct auto_error; discriminate. }
    destruct (Security.falsy (Some s)) eqn:Hfalsy.
    { cbn [orb]. destruct auto_error; discriminate. }
    pose proof (partition_space_parts s) as Hparts.
    destruct (Security.partition_space s) as [scheme param].
    cbn [fst snd orb] in *.
    destruct (String.eqb (Security.lower scheme) "bearer") eqn:Hscheme;
      cbn [negb]; [|destruct auto_error; discriminate].
    apply String.eqb_eq in Hscheme. intros H. inversion H; subst token.
    exists scheme. split; [exact Hscheme|].
    destruct Hparts as [[Hs Hparam]|Hs].
    + left. split; congruence.
    + right. rewrite Hs at 1. reflexivity.
  - intros authorization [->| ->]; split; reflexivity.
Qed.

Lemma dict_get_set_same (d : Security.dict) (key : string) (value : Security.claim) :
  Security.dict_get (Security.dict_set d key value) key = Some value.
Proof.
  induction d as [|[k v] rest IH]; cbn [Security.dict_set Security.dict_get].
  - rewrite String.eqb_refl. reflexivity.
  - destruct (String.eqb k key) eqn:Hk; cbn [Security.dict_get]; rewrite Hk;
      [reflexivity|exact IH].
Qed.

Lemma dict_get_set_other (d : Security.dict) (key other : string)
  (value : Security.claim) :
  other <> key ->
  Security.dict_get (Security.dict_set d key value) other
  = Security.dict_get d other.
Proof.
  intros Hother.
  assert (Hne : String.eqb key other = false).
  { apply String.eqb_neq. congruence. }
  induction d as [|[k v] rest IH]; cbn [Security.dict_set Security.dict_get].
  - rewrite Hne. reflexivity.
  - destruct (String.eqb k key) eqn:Hk; cbn [Security.dict_get].
    + apply String.eqb_eq in Hk. subst k. rewrite Hne. reflexivity.
    + rewrite IH. reflexivity.
Qed.

(** X29.  The payload of an access token always carries [exp]: the time
    of creation plus [expires_delta], and plus 15 minutes when
    [expires_delta] is missing or is the zero duration (which Python takes
    as false), so that a zero lifetime cannot be asked for; an [exp] that
    [data] brought along is replaced; every other entry of [data] is in
    the payload unchanged. *)
Theorem access_token_expiry (data : Security.dict) (now : Z) :
  (forall delta : Z, delta <> 0 ->
      Security.dict_get (Security.to_encode data (Some delta) now) "exp"
      = Some (Security.ClaimInt (now + delta)))
  /\ Security.dict_get (Security.to_encode data None now) "exp"
     = Some (Security.ClaimInt (now + 900000000))
  /\ Security.to_encode data (Some 0) now = Security.to_encode data None now
  /\ (forall (expires_delta : option Z) (key : string),
        key <> "exp" ->
        Security.dict_get (Security.to_encode data expires_delta now) key
        = Security.dict_get data key).
Proof.
  unfold Security.to_encode. split; [|split; [|split]].
  - intros delta Hdelta. apply Z.eqb_neq in Hdelta. rewrite Hdelta.
    apply dict_get_set_same.
  - apply dict_get_set_same.
  - reflexivity.
  - intros expires_delta key Hkey. apply dict_get_set_other. exact Hkey.
Qed.

(** X30.  Token round trip.  If the token library decodes the token that
    [create_access_token] made for [data] to a payload with the [sub] that
    was encoded (nothing is asked of the other entries: the library gives
    [exp] back in whole seconds), and [data] names under [sub] the mail
    address of a person of the store, [get_current_user] returns that
    person.  Conversely, whatever the
    token, a user that [get_current_user] returns is a person of the store
    whose mail address the decoded payload carries under [sub], and every
    failure is the one [NotAuthorizedException]. *)
Theorem token_round_trip
  (jwt_encode : Security.dict -> string)
  (jwt_decode : string -> Security.auth_exn + Security.dict)
  (db : Db.Session) :
  (forall (data : Security.dict) (expires_delta : option Z) (now : Z)
          (mail : string) (payload : Security.dict),
      Security.dict_get data "sub" = Some (Security.ClaimStr mail) ->
      In mail (Db.person_table db) ->
      jwt_decode (Security.create_access_token jwt_encode data expires_delta now)
      = inr payload ->
      Security.dict_get payload "sub"
      = Security.dict_get (Security.to_encode data expires_delta now) "sub" ->
      Security.get_current_user jwt_decode db
        (Security.create_access_token jwt_encode data expires_delta now)
      = inr mail)
  /\ (forall (token user : string),
        Security.get_current_user jwt_decode db token = inr user ->
        In user (Db.person_table db)
        /\ exists payload sub,
             jwt_decode token = inr payload
             /\ Security.dict_get payload "sub" = Some sub
             /\ user = Security.str_validator sub)
  /\ (forall (token : string) (e : Security.auth_exn),
        Security.get_current_user jwt_decode db token = inl e ->
        e = Security.NotAuthorizedException).
Proof.
  split; [|split].
  - intros data expires_delta now mail payload Hsub Hknown Hdecode Hpayload.
    unfold Security.get_current_user. rewrite Hdecode, Hpayload.
    unfold Security.to_encode. rewrite dict_get_set_other by discriminate.
    rewrite Hsub. cbn [Security.str_validator].
    unfold Db.get_user_by_mail. rewrite (find_eqb_present _ _ Hknown).
    reflexivity.
  - intros token user. unfold Security.get_current_user.
    destruct (jwt_decode token) as [[|]|payload]; try discriminate.
    destruct (Security.dict_get payload "sub") as [sub|] eqn:Hsub;
      [|discriminate].
    unfold Db.get_user_by_mail.
    destruct (find (String.eqb (Security.str_validator sub)) (Db.person_table db))
      as [person|] eqn:Hfind; [|discriminate].
    intros H. inversion H; subst person.
    apply find_some in Hfind. destruct Hfind as [Hin Heq].
    apply String.eqb_eq in Heq. split; [exact Hin|].
    exists payload, sub. split; [reflexivity|]. split; [exact Hsub|].
    congruence.
  - intros token e. unfold Security.get_current_user.
    destruct (jwt_decode token) as [[|]|payload].
    + intros H; inversion H; reflexivity.
    + intros H; inversion H; reflexivity.
    + destruct (Security.dict_get payload "sub") as [sub|];
        [|intros H; inversion H; reflexivity].
      destruct (Db.get_user_by_mail db (Security.str_validator sub));
        [discriminate|intros H; inversion H; reflexivity].
Qed.

End SecurityFacts.

Lemma login_form_validation_witness :
  snd (Security.is_valid
         (Security.load_data Security.new_form
            (fun field => if String.eqb field "emailInput"
                          then Some "alice@example.org" else Some "secret")))
  = true.
Proof.
  apply (proj1 login_form_validation).
  exists "alice", "example.org". reflexivity.
Defined.

Lemma oauth2_cookie_witness :
  Security.oauth2_call true (Some "BeArEr abc.def") = inr (Some "abc.def").
Proof.
  apply (proj1 oauth2_cookie true "BeArEr" "abc.def"). reflexivity.
Defined.

Lemma access_token_expiry_witness :
  Security.dict_get
    (Security.to_encode
       [("sub", Security.ClaimStr "alice@example.org");
        ("exp", Security.ClaimInt 1)]
       (Some 60000000) 1000)
    "exp"
  = Some (Security.ClaimInt (1000 + 60000000)).
Proof.
  apply (proj1 (access_token_expiry
                  [("sub", Security.ClaimStr "alice@example.org");
                   ("exp", Security.ClaimInt 1)] 1000)).
  discriminate.
Defined.

Lemma token_round_trip_witness :
  Security.get_current_user
    (Scenarios.decodes_to
       [("sub", Security.ClaimStr "alice@example.org");
        ("exp", Security.ClaimInt 900)])
    Scenarios.db_rated
    (Security.create_access_token Scenarios.one_token
       [("sub", Security.ClaimStr "alice@example.org")] None 1000)
  = inr "alice@example.org".
Proof.
  apply (proj1 (token_round_trip Scenarios.one_token
                  (Scenarios.decodes_to
                     [("sub", Security.ClaimStr "alice@example.org");
                      ("exp", Security.ClaimInt 900)])
                  Scenarios.db_rated)
           [("sub", Security.ClaimStr "alice@example.org")] None 1000
           "alice@example.org"
           [("sub", Security.ClaimStr "alice@example.org");
            ("exp", Security.ClaimInt 900)]).
  - reflexivity.
  - simpl. left. reflexivity.
  - reflexivity.
  - reflexivity.
Defined.

Lemma delete_bewertung_effect_witness :
  snd (Db.delete_bewertung Scenarios.db_rated Examples.alice
         (RestaurantBase.mk "A")) = 1
  /\ Db.count_ratings
       (fst (Db.delete_bewertung Scenarios.db_rated Examples.alice
               (RestaurantBase.mk "A")))
       "alice@example.org" "A" = 0%nat.
Proof.
  destruct (delete_bewertung_effect Scenarios.db_rated Examples.alice
              (RestaurantBase.mk "A")) as (Hn & H0 & _).
  split; [exact Hn|exact H0].
Defined.

(** ** The list the search computes *)

Lemma details_merged_with_details (restaurant : Restaurant)
  (resp_obj : Gapi.DetailsResult) :
  details_merged resp_obj restaurant (Gapi.with_details restaurant resp_obj).
Proof. unfold details_merged. repeat split. Qed.

Lemma place_details_all (details : string -> outcome Gapi.DetailsResult)
  (found : string -> Gapi.DetailsResult) (restaurants : list Restaurant) :
  (forall restaurant, In restaurant restaurants ->
     details (place_id restaurant) = inr (found (place_id restaurant))) ->
  exists extended,
    Gapi.place_details details restaurants = inr extended
    /\ Forall2 (fun restaurant ext =>
                  details_merged (found (place_id restaurant)) restaurant ext)
               restaurants extended.
Proof.
  induction restaurants as [|restaurant rest IH]; intros Hok.
  - exists []. split; [reflexivity|constructor].
  - destruct IH as (ext & Hext & Hall).
    { intros r Hr. apply Hok. now right. }
    cbn [Gapi.place_details].
    rewrite (Hok restaurant (or_introl eq_refl)), Hext.
    eexists. split; [reflexivity|].
    constructor; [apply details_merged_with_details|exact Hall].
Qed.

(** X2.  When every details request succeeds, [place_details] returns one
    restaurant per restaurant given, in the order given; each has its
    website, map link, phone number and address from the details answer for
    its place identifier ([website], [url], [international_phone_number],
    [formatted_address], in that order), and its identity, name,
    coordinates and ratings unchanged. *)
Theorem place_details_merges_fields
  (details : string -> outcome Gapi.DetailsResult)
  (found : string -> Gapi.DetailsResult) (restaurants : list Restaurant) :
  (forall restaurant, In restaurant restaurants ->
     details (place_id restaurant) = inr (found (place_id restaurant))) ->
  exists extended,
    Gapi.place_details details restaurants = inr extended
    /\ Forall2
         (fun restaurant ext =>
            homepage ext = Gapi.website (found (place_id restaurant))
            /\ maps_url ext = Gapi.url (found (place_id restaurant))
            /\ phone_number ext
               = Gapi.international_phone_number (found (place_id restaurant))
            /\ adr (location (geometry ext))
               = Gapi.formatted_address (found (place_id restaurant))
            /\ place_id ext = place_id restaurant
            /\ name ext = name restaurant
            /\ lat (location (geometry ext)) = lat (location (geometry restaurant))
            /\ lng (location (geometry ext)) = lng (location (geometry restaurant))
            /\ rating ext = rating restaurant
            /\ own_rating ext = own_rating restaurant)
         restaurants extended.
Proof. apply place_details_all. Qed.

Lemma place_details_merges_fields_witness :
  exists extended,
    Gapi.place_details Examples.some_details [Examples.cand_A; Examples.cand_B]
    = inr extended
    /\ Forall2
         (fun restaurant ext =>
            homepage ext = Some ("https://" ++ place_id restaurant ++ ".example")
            /\ maps_url ext = Some ("https://maps.example/" ++ place_id restaurant)
            /\ phone_number ext = Some "+49 621 0000"
            /\ adr (location (geometry ext)) = Some "Coblitzallee 1, Mannheim"
            /\ place_id ext = place_id restaurant
            /\ name ext = name restaurant
            /\ lat (location (geometry ext)) = lat (location (geometry restaurant))
            /\ lng (location (geometry ext)) = lng (location (geometry restaurant))
            /\ rating ext = rating restaurant
            /\ own_rating ext = own_rating restaurant)
         [Examples.cand_A; Examples.cand_B] extended.
Proof.
  apply (place_details_merges_fields Examples.some_details
           (fun place_id =>
              Gapi.mkDetailsResult
                (Some ("https://" ++ place_id ++ ".example"))
                (Some ("https://maps.example/" ++ place_id))
                (Some "+49 621 0000") (Some "Coblitzallee 1, Mannheim"))
           [Examples.cand_A; Examples.cand_B]).
  intros restaurant _. reflexivity.
Defined.

(** X7.  The list that the [try] block of [search_restaurant] computes is
    the one its documentation promises: for a run of pages ended by a page
    without token, and details requests that all succeed, it holds one
    restaurant per restaurant of the pages, in the pages' order, each with
    website, map link, phone number and address from its details answer
    and with identity, name, coordinates and ratings as the page gave
    them. *)
Theorem search_restaurant_try_all_pages
  (nearbysearch : Gapi.Params -> option string -> outcome Gapi.NearbyResponse)
  (details : string -> outcome Gapi.DetailsResult)
  (found : string -> Gapi.DetailsResult)
  (cuisin : string) (loc_lat loc_lng radius : Z)
  (pages : list (list Restaurant)) (next final : option string)
  (last : list Restaurant) (spare : nat) :
  page_run nearbysearch
    (Gapi.mkParams cuisin loc_lat loc_lng true radius "restaurant" "de")
    None pages next ->
  nearbysearch
    (Gapi.mkParams cuisin loc_lat loc_lng true radius "restaurant" "de") next
  = inr (Gapi.mkNearbyResponse last final) ->
  Gapi.truthy final = false ->
  (forall place_id, details place_id = inr (found place_id)) ->
  exists extended,
    Gapi.search_restaurant_try nearbysearch details
      (List.length pages + S spare) cuisin loc_lat loc_lng radius
    = Some (inr extended)
    /\ Forall2
         (fun restaurant ext =>
            homepage ext = Gapi.website (found (place_id restaurant))
            /\ maps_url ext = Gapi.url (found (place_id restaurant))
            /\ phone_number ext
               = Gapi.international_phone_number (found (place_id restaurant))
            /\ adr (location (geometry ext))
               = Gapi.formatted_address (found (place_id restaurant))
            /\ place_id ext = place_id restaurant
            /\ name ext = name restaurant
            /\ lat (location (geometry ext)) = lat (location (geometry restaurant))
            /\ lng (location (geometry ext)) = lng (location (geometry restaurant))
            /\ rating ext = rating restaurant
            /\ own_rating ext = own_rating restaurant)
         (List.concat pages ++ last)%list extended.
Proof.
  intros Hrun Hlast Hfinal Hdetails. unfold Gapi.search_restaurant_try.
  rewrite (nearby_search_after_run nearbysearch _ pages None next Hrun
             (S spare) (inr last)).
  - destruct (place_details_all details found (List.concat pages ++ last)%list)
      as (extended & Hext & Hall).
    { intros restaurant _. apply Hdetails. }
    rewrite Hext. exists extended. split; [reflexivity|exact Hall].
  - rewrite nearby_search_S, Hlast. cbn [Gapi.next_page_token Gapi.results].
    rewrite Hfinal. reflexivity.
Qed.

Lemma search_restaurant_try_all_pages_witness :
  exists extended,
    Gapi.search_restaurant_try Scenarios.three_pages Examples.some_details
      3 "italian" 0 0 5000
    = Some (inr extended)
    /\ Forall2
         (fun restaurant ext =>
            homepage ext = Some ("https://" ++ place_id restaurant ++ ".example")
            /\ maps_url ext = Some ("https://maps.example/" ++ place_id restaurant)
            /\ phone_number ext = Some "+49 621 0000"
            /\ adr (location (geometry ext)) = Some "Coblitzallee 1, Mannheim"
            /\ place_id ext = place_id restaurant
            /\ name ext = name restaurant
            /\ lat (location (geometry ext)) = lat (location (geometry restaurant))
            /\ lng (location (geometry ext)) = lng (location (geometry restaurant))
            /\ rating ext = rating restaurant
            /\ own_rating ext = own_rating restaurant)
         [Examples.cand_A; Examples.cand_B; Examples.cand_C] extended.
Proof.
  apply (search_restaurant_try_all_pages Scenarios.three_pages
           Examples.some_details
           (fun place_id =>
              Gapi.mkDetailsResult
                (Some ("https://" ++ place_id ++ ".example"))
                (Some ("https://maps.example/" ++ place_id))
                (Some "+49 621 0000") (Some "Coblitzallee 1, Mannheim"))
           "italian" 0 0 5000
           [[Examples.cand_A]; [Examples.cand_B]] (Some "t2") (Some "")
           [Examples.cand_C] 0).
  - eapply page_run_next; [reflexivity|reflexivity|].
    eapply page_run_next; [reflexivity|reflexivity|].
    apply page_run_stop.
  - reflexivity.
  - reflexivity.
  - reflexivity.
Defined.
